(** * MedFlow: the deterministic tools behind the admission agents

    A shallow embedding of [med_agent/customTools.py]: the clinical scorer,
    the process-wide [HOSPITAL_STATE] inventory with its reservation tools,
    the conflict detector and the state query.

    Conventions of the embedding.
    - Python [int] is [Z]; a [float] (vital signs, rates, averages) is an
      exact rational [Q].  True division [/] is [py_div]: it raises
      [ZeroDivisionError] on a zero divisor and otherwise keeps the exact
      quotient (the source rounds it to the nearest double).
    - A [dict] that the source iterates over (beds, equipment, the keyword
      table) is an insertion-ordered association list [dict V]; the
      [vital_signs] argument, which is only ever read with [.get], is a
      [gmap string Q].
    - [datetime.now().isoformat()] is an explicit argument [now] of every
      tool that reads the clock.
    - The global [HOSPITAL_STATE] is threaded explicitly: a mutating tool
      returns its result together with the new state.
    - Strings are byte strings; [str.lower] is the ASCII lower-casing. *)

From Stdlib Require Import ZArith QArith Qround Lia Lqa Ascii String.
From stdpp Require Import base option list strings gmap pretty sorting.

Local Open Scope Z_scope.

(** ** Python runtime helpers *)

(** [str.lower()] on ASCII text. *)
Definition ascii_lower (c : ascii) : ascii :=
  let n := N_of_ascii c in
  if ((65 <=? n) && (n <=? 90))%N then ascii_of_N (n + 32) else c.

Fixpoint lower (s : string) : string :=
  match s with
  | EmptyString => EmptyString
  | String c s' => String (ascii_lower c) (lower s')
  end.

(** [kw in s] on strings: [kw] occurs in [s] as a contiguous substring. *)
Fixpoint contains (kw s : string) : bool :=
  String.prefix kw s ||
  match s with
  | EmptyString => false
  | String _ s' => contains kw s'
  end.

(** [a < b] on floats. *)
Definition Qltb (a b : Q) : bool := negb (Qle_bool b a).

(** ** ClinicalScorer: [calculate_clinical_score] *)

Record Assessment := {
  clinical_score : Z;
  severity : string;
  survival_probability : Z;
  risk_factors : list string;
  calculation_time : string
}.

(** The local variables [score] and [risk_factors] of the function. *)
Definition score_state : Type := Z * list string.

(** [critical_keywords], in the insertion order of the dict literal. *)
Definition critical_keywords : list (string * Z) :=
  [ ("chest pain", 3);
    ("unresponsive", 4);
    ("stroke", 4);
    ("seizure", 3);
    ("severe bleeding", 3);
    ("head trauma", 3);
    ("difficulty breathing", 2);
    ("altered mental", 2) ].

(** The inner [for keyword, points in critical_keywords.items()] loop with
    its [break]: the points of the first keyword found in [symptom_lower]. *)
Fixpoint scan_keywords (table : list (string * Z)) (symptom_lower : string)
  : option Z :=
  match table with
  | [] => None
  | (keyword, points) :: rest =>
      if contains keyword symptom_lower then Some points
      else scan_keywords rest symptom_lower
  end.

Section Scorer.
(** [str_num x] is the text an f-string prints for the vital sign [x]. *)
Variable str_num : Q -> string.

Definition score_age (age : Z) (st : score_state) : score_state :=
  let '(score, risk_factors) := st in
  if 75 <? age then
    (score + 3, risk_factors ++ ["Advanced age (" +:+ pretty age +:+ "y)"])
  else if 65 <? age then
    (score + 2, risk_factors ++ ["Elderly (" +:+ pretty age +:+ "y)"])
  else if age <? 1 then
    (score + 2, risk_factors ++ ["Infant"])
  else st.

Definition score_heart_rate (hr : Q) (st : score_state) : score_state :=
  let '(score, risk_factors) := st in
  if Qltb 130 hr || Qltb hr 50 then
    (score + 3,
     risk_factors ++ ["Critical heart rate (" +:+ str_num hr +:+ " bpm)"])
  else if Qltb 110 hr || Qltb hr 60 then
    (score + 2,
     risk_factors ++ ["Abnormal heart rate (" +:+ str_num hr +:+ " bpm)"])
  else st.

Definition score_blood_pressure (bp_sys : Q) (st : score_state)
  : score_state :=
  let '(score, risk_factors) := st in
  if Qltb bp_sys 90 then
    (score + 4,
     risk_factors ++ ["Hypotension (" +:+ str_num bp_sys +:+ " mmHg)"])
  else if Qltb 180 bp_sys then
    (score + 2,
     risk_factors ++
       ["Severe hypertension (" +:+ str_num bp_sys +:+ " mmHg)"])
  else st.

Definition score_oxygen (o2_sat : Q) (st : score_state) : score_state :=
  let '(score, risk_factors) := st in
  if Qltb o2_sat 88 then
    (score + 5,
     risk_factors ++ ["Critical hypoxia (" +:+ str_num o2_sat +:+ "%)"])
  else if Qltb o2_sat 92 then
    (score + 3, risk_factors ++ ["Hypoxia (" +:+ str_num o2_sat +:+ "%)"])
  else if Qltb o2_sat 95 then
    (score + 1,
     risk_factors ++ ["Low oxygen (" +:+ str_num o2_sat +:+ "%)"])
  else st.

(** One iteration of [for symptom in symptoms]. *)
Definition score_symptom (st : score_state) (symptom : string)
  : score_state :=
  let '(score, risk_factors) := st in
  let symptom_lower := lower symptom in
  match scan_keywords critical_keywords symptom_lower with
  | Some points =>
      (score + points,
       risk_factors ++ ["Critical symptom: " +:+ symptom])
  | None => st
  end.

Definition score_symptoms (symptoms : list string) (st : score_state)
  : score_state :=
  fold_left score_symptom symptoms st.

(** The [# Calculate severity] chain. *)
Definition classify (score : Z) : string * Z :=
  if 12 <=? score then ("CRITICAL", Z.max 40 (95 - score * 4))
  else if 8 <=? score then ("HIGH", Z.max 60 (100 - score * 3))
  else if 5 <=? score then ("MODERATE", Z.max 80 (100 - score * 2))
  else ("LOW", 95).

Definition calculate_clinical_score
    (now : string) (age : Z) (vital_signs : gmap string Q)
    (symptoms : list string) : Assessment :=
  let st := score_age age (0, []) in
  let hr := default (80 : Q) (vital_signs !! "heart_rate") in
  let bp_sys := default (120 : Q) (vital_signs !! "bp_systolic") in
  let o2_sat := default (98 : Q) (vital_signs !! "oxygen_saturation") in
  let st := score_heart_rate hr st in
  let st := score_blood_pressure bp_sys st in
  let st := score_oxygen o2_sat st in
  let '(score, risk_factors) := score_symptoms symptoms st in
  let '(severity, survival_prob) := classify score in
  {| clinical_score := score;
     severity := severity;
     survival_probability := survival_prob;
     risk_factors := risk_factors;
     calculation_time := now |}.
End Scorer.


(** ** Exceptions, dicts and number formatting *)

Inductive exn :=
| ZeroDivisionError
| KeyError (key : string).

(** A computation that returns a value or raises. *)
Inductive py (A : Type) :=
| Ok (a : A)
| Raise (e : exn).
Arguments Ok {A} a.
Arguments Raise {A} e.

#[global] Instance py_ret : MRet py := @Ok.
#[global] Instance py_bind : MBind py := λ A B f m,
  match m with
  | Ok a => f a
  | Raise e => Raise e
  end.

(** [a / b] on two ints. *)
Definition py_div (a b : Z) : py Q :=
  if b =? 0 then Raise ZeroDivisionError
  else Ok (inject_Z a / inject_Z b)%Q.

(** An insertion-ordered dict with string keys. *)
Abbreviation dict V := (list (string * V)).

Fixpoint dict_get {V} (k : string) (d : dict V) : option V :=
  match d with
  | [] => None
  | (k', v) :: d' => if decide (k' = k) then Some v else dict_get k d'
  end.

(** [d[k]], which raises [KeyError] on a missing key. *)
Definition dict_item {V} (k : string) (d : dict V) : py V :=
  match dict_get k d with
  | Some v => Ok v
  | None => Raise (KeyError k)
  end.

(** [d[k] = v]: an existing key keeps its place, a new key goes last. *)
Fixpoint dict_set {V} (k : string) (v : V) (d : dict V) : dict V :=
  match d with
  | [] => [(k, v)]
  | (k', v') :: d' =>
      if decide (k' = k) then (k, v) :: d' else (k', v') :: dict_set k v d'
  end.

Definition dict_keys {V} (d : dict V) : list string := d.*1.
Definition dict_values {V} (d : dict V) : list V := d.*2.

(** [len(x)] as an int. *)
Definition len {A} (l : list A) : Z := Z.of_nat (length l).

(** [f"{x}"] for an optional string: [None] prints as "None". *)
Definition str_opt (o : option string) : string := default "None" o.

(** Rounding to the nearest integer, ties to even, as [format] does. *)
Definition round_half_even (q : Q) : Z :=
  let f := Qfloor q in
  match (q - inject_Z f ?= 1 # 2)%Q with
  | Lt => f
  | Gt => f + 1
  | Eq => if Z.even f then f else f + 1
  end.

(** [f"{q:.0f}"]. *)
Definition fmt_0f (q : Q) : string :=
  let z := round_half_even q in
  if (z =? 0) && Qltb q 0 then "-0" else pretty z.

(** [min(xs, default=0)] and [max(xs, default=0)]. *)
Definition min_default0 (xs : list Z) : Z :=
  match xs with
  | [] => 0
  | x :: xs' => foldl Z.min x xs'
  end.

Definition max_default0 (xs : list Z) : Z :=
  match xs with
  | [] => 0
  | x :: xs' => foldl Z.max x xs'
  end.

(** [sum(xs)]. *)
Definition py_sum (xs : list Z) : Z := foldl Z.add 0 xs.

(** ** HospitalStateStore: the shape of [HOSPITAL_STATE] *)

Record Bed := {
  status : string;
  patient : option string;
  priority : option string;
  reserved_at : option string;
  expected_discharge : option string
}.

Record TreatmentRooms := {
  rooms_available : Z;
  rooms_total : Z;
  rooms_occupied : Z
}.

(** A staff dict; a key that a record does not carry is [None]. *)
Record StaffMember := {
  name : string;
  specialty : option string;
  current_load : option Z;
  current_patients : option Z;
  staff_available_flag : option bool
}.

Record Pool := {
  available : Z;
  total : Z
}.

Record HospitalState := {
  icu_beds : dict Bed;
  ed_trauma_bays : dict Bed;
  ed_treatment_rooms : TreatmentRooms;
  staff_available : dict (list StaffMember);
  equipment : dict Pool
}.

Definition set_icu_beds (d : dict Bed) (s : HospitalState) : HospitalState :=
  {| icu_beds := d;
     ed_trauma_bays := ed_trauma_bays s;
     ed_treatment_rooms := ed_treatment_rooms s;
     staff_available := staff_available s;
     equipment := equipment s |}.

Definition set_ed_trauma_bays (d : dict Bed) (s : HospitalState)
  : HospitalState :=
  {| icu_beds := icu_beds s;
     ed_trauma_bays := d;
     ed_treatment_rooms := ed_treatment_rooms s;
     staff_available := staff_available s;
     equipment := equipment s |}.

Definition set_staff_available (d : dict (list StaffMember))
    (s : HospitalState) : HospitalState :=
  {| icu_beds := icu_beds s;
     ed_trauma_bays := ed_trauma_bays s;
     ed_treatment_rooms := ed_treatment_rooms s;
     staff_available := d;
     equipment := equipment s |}.

Definition set_equipment (d : dict Pool) (s : HospitalState)
  : HospitalState :=
  {| icu_beds := icu_beds s;
     ed_trauma_bays := ed_trauma_bays s;
     ed_treatment_rooms := ed_treatment_rooms s;
     staff_available := staff_available s;
     equipment := d |}.

Definition occupied_bed (p : string) (discharge : option string) : Bed :=
  {| status := "occupied"; patient := Some p; priority := None;
     reserved_at := None; expected_discharge := discharge |}.

Definition free_bed : Bed :=
  {| status := "available"; patient := None; priority := None;
     reserved_at := None; expected_discharge := None |}.

Definition physician (n : string) (load : Z) : StaffMember :=
  {| name := n; specialty := Some "Emergency Medicine";
     current_load := Some load; current_patients := None;
     staff_available_flag := None |}.

Definition nurse (n : string) (patients : Z) : StaffMember :=
  {| name := n; specialty := None; current_load := None;
     current_patients := Some patients; staff_available_flag := None |}.

Definition specialist (n : string) (free : bool) : StaffMember :=
  {| name := n; specialty := None; current_load := None;
     current_patients := None; staff_available_flag := Some free |}.

(** The module-level initial value. *)
Definition HOSPITAL_STATE : HospitalState :=
  {| icu_beds :=
       [ ("ICU-1", occupied_bed "P001" (Some "2024-10-30T14:00"));
         ("ICU-2", occupied_bed "P002" (Some "2024-10-30T08:00"));
         ("ICU-3", free_bed);
         ("ICU-4", free_bed) ];
     ed_trauma_bays :=
       [ ("TB-1", occupied_bed "P003" None);
         ("TB-2", free_bed);
         ("TB-3", free_bed) ];
     ed_treatment_rooms :=
       {| rooms_available := 5; rooms_total := 15; rooms_occupied := 10 |};
     staff_available :=
       [ ("ed_physicians",
           [ physician "Dr. Smith" 3; physician "Dr. Jones" 2 ]);
         ("ed_nurses",
           [ nurse "RN Johnson" 4; nurse "RN Williams" 3;
             nurse "RN Davis" 2 ]);
         ("cardiologists", [ specialist "Dr. Patel" true ]);
         ("trauma_surgeons", [ specialist "Dr. Martinez" true ]) ];
     equipment :=
       [ ("ventilators", {| available := 2; total := 7 |});
         ("cardiac_monitors", {| available := 8; total := 15 |});
         ("defibrillators", {| available := 6; total := 8 |}) ] |}.

(** ** [check_equipment] *)

Record EquipmentStatus := {
  es_equipment_type : string;
  es_available : Z;
  es_total : Z;
  in_use : Z;
  utilization_rate : Q;
  es_status : string
}.

Definition check_equipment (equipment_type : string) (s : HospitalState)
  : py EquipmentStatus :=
  let equip := dict_get equipment_type (equipment s) in
  let avail := default 0 (available <$> equip) in
  let tot := default 0 (total <$> equip) in
  rate ← (if 0 <? tot
          then q ← py_div (tot - avail) tot; mret (q * 100)%Q
          else mret (0 : Q));
  mret {| es_equipment_type := equipment_type;
          es_available := avail;
          es_total := tot;
          in_use := tot - avail;
          utilization_rate := rate;
          es_status := if 0 <? avail then "available" else "all_in_use" |}.

(** ** [reserve_bed] *)

Record BedReservation := {
  rb_success : bool;
  rb_bed_id : string;
  rb_department : option string;
  rb_patient : option string;
  rb_message : string
}.

Definition bed_failure (bed_id message : string) : BedReservation :=
  {| rb_success := false; rb_bed_id := bed_id; rb_department := None;
     rb_patient := None; rb_message := message |}.

Definition reserved_bed (patient_name prio reservation_time : string)
  : Bed :=
  {| status := "reserved"; patient := Some patient_name;
     priority := Some prio; reserved_at := Some reservation_time;
     expected_discharge := None |}.

Definition reserve_bed (now bed_id patient_name prio : string)
    (s : HospitalState) : BedReservation * HospitalState :=
  let reservation_time := now in
  match dict_get bed_id (icu_beds s) with
  | Some bed =>
      let current_status := status bed in
      if decide (current_status = "reserved") then
        let current_patient := patient bed in
        (bed_failure bed_id
           ("Bed " +:+ bed_id +:+ " already reserved for "
              +:+ str_opt current_patient), s)
      else if decide (current_status = "available") then
        ({| rb_success := true; rb_bed_id := bed_id;
            rb_department := Some "ICU"; rb_patient := Some patient_name;
            rb_message :=
              "ICU bed " +:+ bed_id +:+ " reserved for " +:+ patient_name |},
         set_icu_beds
           (dict_set bed_id (reserved_bed patient_name prio reservation_time)
              (icu_beds s)) s)
      else
        (bed_failure bed_id
           ("Bed " +:+ bed_id +:+ " not available (status: "
              +:+ current_status +:+ ")"), s)
  | None =>
      match dict_get bed_id (ed_trauma_bays s) with
      | Some bed =>
          let current_status := status bed in
          if decide (current_status = "reserved") then
            let current_patient := patient bed in
            (bed_failure bed_id
               ("Trauma bay " +:+ bed_id +:+ " already reserved for "
                  +:+ str_opt current_patient), s)
          else if decide (current_status = "available") then
            ({| rb_success := true; rb_bed_id := bed_id;
                rb_department := Some "ED_Trauma";
                rb_patient := Some patient_name;
                rb_message :=
                  "Trauma bay " +:+ bed_id +:+ " reserved for "
                    +:+ patient_name |},
             set_ed_trauma_bays
               (dict_set bed_id
                  (reserved_bed patient_name prio reservation_time)
                  (ed_trauma_bays s)) s)
          else
            (bed_failure bed_id
               ("Trauma bay " +:+ bed_id +:+ " not available (status: "
                  +:+ current_status +:+ ")"), s)
      | None =>
          (bed_failure bed_id
             ("Bed ID " +:+ bed_id +:+ " not found in system"), s)
      end
  end.

(** ** [reserve_equipment] *)

Record EquipmentReservation := {
  re_success : bool;
  re_equipment_type : option string;
  re_requested : option Z;
  re_available : option Z;
  re_quantity_reserved : option Z;
  re_patient : option string;
  re_remaining_available : option Z;
  re_message : string
}.

Definition reserve_equipment (equipment_type patient_name : string)
    (quantity : Z) (s : HospitalState)
  : EquipmentReservation * HospitalState :=
  match dict_get equipment_type (equipment s) with
  | None =>
      ({| re_success := false; re_equipment_type := None;
          re_requested := None; re_available := None;
          re_quantity_reserved := None; re_patient := None;
          re_remaining_available := None;
          re_message := "Unknown equipment type: " +:+ equipment_type |}, s)
  | Some equip =>
      let avail := available equip in
      if avail <? quantity then
        ({| re_success := false; re_equipment_type := Some equipment_type;
            re_requested := Some quantity; re_available := Some avail;
            re_quantity_reserved := None; re_patient := None;
            re_remaining_available := None;
            re_message :=
              "Insufficient " +:+ equipment_type +:+ " - only "
                +:+ pretty avail +:+ " available" |}, s)
      else
        let equip' :=
          {| available := available equip - quantity;
             total := total equip |} in
        ({| re_success := true; re_equipment_type := Some equipment_type;
            re_requested := None; re_available := None;
            re_quantity_reserved := Some quantity;
            re_patient := Some patient_name;
            re_remaining_available := Some (available equip');
            re_message :=
              pretty quantity +:+ " " +:+ equipment_type
                +:+ " reserved for " +:+ patient_name |},
         set_equipment (dict_set equipment_type equip' (equipment s)) s)
  end.

(** ** [assign_staff] *)

Record StaffAssignment := {
  sa_success : bool;
  sa_staff_name : option string;
  sa_specialty : option string;
  sa_patient : option string;
  sa_new_load : option Z;
  sa_message : string
}.

Definition specialty_map : dict string :=
  [ ("ED_Physician", "ed_physicians");
    ("ED_Nurse", "ed_nurses");
    ("Cardiologist", "cardiologists");
    ("Trauma_Surgeon", "trauma_surgeons") ].

Definition staff_failure (message : string) : StaffAssignment :=
  {| sa_success := false; sa_staff_name := None; sa_specialty := None;
     sa_patient := None; sa_new_load := None; sa_message := message |}.

(** The [# Update workload] step on the staff dict that was found. *)
Definition update_workload (key : string) (m : StaffMember) : StaffMember :=
  if decide (key = "ed_physicians") then
    {| name := name m; specialty := specialty m;
       current_load := Some (default 0 (current_load m) + 1);
       current_patients := current_patients m;
       staff_available_flag := staff_available_flag m |}
  else if decide (key = "ed_nurses") then
    {| name := name m; specialty := specialty m;
       current_load := current_load m;
       current_patients := Some (default 0 (current_patients m) + 1);
       staff_available_flag := staff_available_flag m |}
  else
    {| name := name m; specialty := specialty m;
       current_load := current_load m;
       current_patients := current_patients m;
       staff_available_flag := Some false |}.

(** The staff list after the first member called [staff_name] has been
    updated in place; [None] when [next(..., None)] finds nobody. *)
Fixpoint update_staff (key staff_name : string) (l : list StaffMember)
  : option (StaffMember * list StaffMember) :=
  match l with
  | [] => None
  | m :: l' =>
      if decide (name m = staff_name) then
        let m' := update_workload key m in Some (m', m' :: l')
      else
        '(m', l'') ← update_staff key staff_name l';
        Some (m', m :: l'')
  end.

(** [a or b] on two optional ints: [a] unless it is [None] or [0]. *)
Definition or_else (a b : option Z) : option Z :=
  match a with
  | Some n => if n =? 0 then b else a
  | None => b
  end.

Definition assign_staff (staff_name spec patient_name : string)
    (s : HospitalState) : StaffAssignment * HospitalState :=
  match dict_get spec specialty_map with
  | None => (staff_failure ("Unknown specialty: " +:+ spec), s)
  | Some key =>
      if decide (key = "") then
        (staff_failure ("Unknown specialty: " +:+ spec), s)
      else
        let staff_list := default [] (dict_get key (staff_available s)) in
        match update_staff key staff_name staff_list with
        | None =>
            (staff_failure (staff_name +:+ " not found in " +:+ spec), s)
        | Some (staff_member, staff_list') =>
            ({| sa_success := true; sa_staff_name := Some staff_name;
                sa_specialty := Some spec; sa_patient := Some patient_name;
                sa_new_load :=
                  or_else (current_load staff_member)
                    (current_patients staff_member);
                sa_message :=
                  staff_name +:+ " assigned to " +:+ patient_name |},
             set_staff_available
               (dict_set key staff_list' (staff_available s)) s)
        end
  end.

(** ** ConflictDetector: [detect_resource_conflicts] *)

Record Conflict := {
  c_type : string;
  c_severity : string;
  c_details : string;
  c_recommendation : string
}.

Record ConflictReport := {
  conflicts_detected : bool;
  conflict_count : Z;
  cr_severity : string;
  conflicts : list Conflict;
  cr_timestamp : string;
  requires_intervention : bool
}.

(** The local variables [conflicts] and [conflict_severity]. *)
Definition detect_state : Type := list Conflict * string.

(** [sum(1 for bed in beds.values() if bed['status'] == 'available')]. *)
Definition count_available (beds : dict Bed) : Z :=
  len (filter (λ bed, status bed = "available") (dict_values beds)).

Definition check_icu (icu_occupancy : Q) (icu_available : Z)
    (st : detect_state) : detect_state :=
  let '(conflicts, conflict_severity) := st in
  if Qle_bool 90 icu_occupancy then
    (conflicts ++
       [{| c_type := "ICU_CAPACITY"; c_severity := "CRITICAL";
           c_details :=
             "ICU at " +:+ fmt_0f icu_occupancy +:+ "% capacity - only "
               +:+ pretty icu_available +:+ " beds available";
           c_recommendation :=
             "Consider ED holding or transfer to partner facility" |}],
     "CRITICAL")
  else if Qle_bool 75 icu_occupancy then
    (conflicts ++
       [{| c_type := "ICU_CAPACITY"; c_severity := "HIGH";
           c_details := "ICU at " +:+ fmt_0f icu_occupancy +:+ "% capacity";
           c_recommendation := "Monitor for potential shortage" |}],
     if decide (conflict_severity ≠ "CRITICAL") then "HIGH"
     else conflict_severity)
  else st.

Definition check_trauma (trauma_available : Z) (st : detect_state)
  : detect_state :=
  let '(conflicts, conflict_severity) := st in
  if trauma_available =? 0 then
    (conflicts ++
       [{| c_type := "TRAUMA_BAY_SHORTAGE"; c_severity := "HIGH";
           c_details := "No trauma bays available";
           c_recommendation :=
             "Use ED treatment rooms for non-trauma critical patients" |}],
     if decide (conflict_severity ∉ ["CRITICAL"; "HIGH"]) then "HIGH"
     else conflict_severity)
  else st.

Definition check_physicians (physicians : list StaffMember)
    (st : detect_state) : detect_state :=
  let '(conflicts, conflict_severity) := st in
  let physicians_overloaded :=
    filter (λ p, 5 ≤ default 0 (current_load p)) physicians in
  match physicians_overloaded with
  | [] => st
  | _ :: _ =>
      (conflicts ++
         [{| c_type := "PHYSICIAN_OVERLOAD"; c_severity := "MODERATE";
             c_details :=
               pretty (len physicians_overloaded)
                 +:+ " physicians at capacity (5+ patients)";
             c_recommendation :=
               "Redistribute new admissions or call additional staff" |}],
       if decide (conflict_severity = "NONE") then "MODERATE"
       else conflict_severity)
  end.

Definition check_ventilators (ventilators_available : Z)
    (st : detect_state) : detect_state :=
  let '(conflicts, conflict_severity) := st in
  if ventilators_available =? 0 then
    (conflicts ++
       [{| c_type := "VENTILATOR_SHORTAGE"; c_severity := "CRITICAL";
           c_details := "No ventilators available";
           c_recommendation :=
             "Use BiPAP or manual ventilation; prepare for transfer" |}],
     "CRITICAL")
  else if ventilators_available <=? 1 then
    (conflicts ++
       [{| c_type := "VENTILATOR_LIMITED"; c_severity := "HIGH";
           c_details :=
             "Only " +:+ pretty ventilators_available
               +:+ " ventilator(s) available";
           c_recommendation := "Reserve for most critical patients only" |}],
     if decide (conflict_severity ∉ ["CRITICAL"]) then "HIGH"
     else conflict_severity)
  else st.

(** The [return] statement: the report built from the final locals. *)
Definition conflict_report (now : string) (st : detect_state)
  : ConflictReport :=
  let '(conflicts, conflict_severity) := st in
  {| conflicts_detected := 0 <? len conflicts;
     conflict_count := len conflicts;
     cr_severity := conflict_severity;
     conflicts := conflicts;
     cr_timestamp := now;
     requires_intervention :=
       bool_decide (conflict_severity ∈ ["CRITICAL"; "HIGH"]) |}.

Definition detect_resource_conflicts (now : string) (s : HospitalState)
  : py ConflictReport :=
  let st : detect_state := ([], "NONE") in
  let icu_available := count_available (icu_beds s) in
  let icu_total := len (icu_beds s) in
  q ← py_div (icu_total - icu_available) icu_total;
  let icu_occupancy := (q * 100)%Q in
  let st := check_icu icu_occupancy icu_available st in
  let trauma_available := count_available (ed_trauma_bays s) in
  let st := check_trauma trauma_available st in
  physicians ← dict_item "ed_physicians" (staff_available s);
  let st := check_physicians physicians st in
  ventilators ← dict_item "ventilators" (equipment s);
  let ventilators_available := available ventilators in
  let st := check_ventilators ventilators_available st in
  mret (conflict_report now st).

(** ** The state query: [get_hospital_state] *)

Record BedSection := {
  bs_available : list string;
  bs_available_count : Z;
  bs_occupied : list string;
  bs_occupied_count : Z;
  bs_total : Z;
  bs_occupancy_rate : option Q
}.

Record BedsSnapshot := {
  icu : BedSection;
  trauma_bays : BedSection;
  ed_treatment : TreatmentRooms
}.

Record WorkloadSummary := {
  least_busy : Z;
  most_busy : Z;
  average_load : Q
}.

Record StaffSnapshot := {
  physicians : list StaffMember;
  nurses : list StaffMember;
  specialist_cardiologists : list StaffMember;
  specialist_trauma_surgeons : list StaffMember;
  physician_workload_summary : WorkloadSummary
}.

(** A key that the filter leaves out of the snapshot is [None]. *)
Record Snapshot := {
  timestamp : string;
  query_filter_echo : string;
  beds : option BedsSnapshot;
  staff : option StaffSnapshot;
  snap_equipment : option (dict Pool);
  equipment_shortages : option (list string)
}.

(** The ids of the beds whose status is one of [statuses]. *)
Definition bed_ids_with (statuses : list string) (beds : dict Bed)
  : list string :=
  dict_keys (filter (λ kv, status kv.2 ∈ statuses) beds).

(** [p['current_load']], which raises when the key is missing. *)
Definition load_of (p : StaffMember) : py Z :=
  match current_load p with
  | Some n => Ok n
  | None => Raise (KeyError "current_load")
  end.

(** The [# Identify shortages] loop. *)
Fixpoint find_shortages (items : dict Pool) (shortages : list string)
  : py (list string) :=
  match items with
  | [] => mret shortages
  | (equip_type, data) :: rest =>
      q ← py_div (total data - available data) (total data);
      let utilization := (q * 100)%Q in
      if available data =? 0 then
        find_shortages rest (shortages ++ [equip_type +:+ ": NONE AVAILABLE"])
      else if Qle_bool 80 utilization then
        find_shortages rest
          (shortages ++
             [equip_type +:+ ": " +:+ pretty (available data) +:+ "/"
                +:+ pretty (total data) +:+ " available ("
                +:+ fmt_0f utilization +:+ "% utilized)"])
      else find_shortages rest shortages
  end.

Definition beds_section (s : HospitalState) : py BedsSnapshot :=
  let icu_available := bed_ids_with ["available"] (icu_beds s) in
  let icu_occupied := bed_ids_with ["occupied"; "reserved"] (icu_beds s) in
  let trauma_available := bed_ids_with ["available"] (ed_trauma_bays s) in
  let trauma_occupied :=
    bed_ids_with ["occupied"; "reserved"] (ed_trauma_bays s) in
  q ← py_div (len icu_occupied) (len (icu_beds s));
  mret {| icu :=
            {| bs_available := icu_available;
               bs_available_count := len icu_available;
               bs_occupied := icu_occupied;
               bs_occupied_count := len icu_occupied;
               bs_total := len (icu_beds s);
               bs_occupancy_rate := Some (q * 100)%Q |};
          trauma_bays :=
            {| bs_available := trauma_available;
               bs_available_count := len trauma_available;
               bs_occupied := trauma_occupied;
               bs_occupied_count := len trauma_occupied;
               bs_total := len (ed_trauma_bays s);
               bs_occupancy_rate := None |};
          ed_treatment := ed_treatment_rooms s |}.

Definition staff_section (s : HospitalState) : py StaffSnapshot :=
  ed_physicians ← dict_item "ed_physicians" (staff_available s);
  ed_nurses ← dict_item "ed_nurses" (staff_available s);
  cardiologists ← dict_item "cardiologists" (staff_available s);
  trauma_surgeons ← dict_item "trauma_surgeons" (staff_available s);
  loads ← mapM load_of ed_physicians;
  avg ← py_div (py_sum loads) (len ed_physicians);
  mret {| physicians := ed_physicians;
          nurses := ed_nurses;
          specialist_cardiologists := cardiologists;
          specialist_trauma_surgeons := trauma_surgeons;
          physician_workload_summary :=
            {| least_busy := min_default0 loads;
               most_busy := max_default0 loads;
               average_load := avg |} |}.

(** [x in [None, name, 'full_state']] for the optional filter [x]. *)
Definition filter_selects (query_filter : option string) (name : string)
  : bool :=
  match query_filter with
  | None => true
  | Some f => bool_decide (f ∈ [name; "full_state"])
  end.

(** [query_filter or 'full_state']: [None] and the empty string are falsy. *)
Definition filter_or_full (query_filter : option string) : string :=
  match query_filter with
  | None => "full_state"
  | Some f => if decide (f = "") then "full_state" else f
  end.

Definition get_hospital_state (now : string) (query_filter : option string)
    (s : HospitalState) : py Snapshot :=
  bd ← (if filter_selects query_filter "beds_only"
        then b ← beds_section s; mret (Some b) else mret None);
  sf ← (if filter_selects query_filter "staff_only"
        then x ← staff_section s; mret (Some x) else mret None);
  eq ← (if filter_selects query_filter "equipment_only"
        then sh ← find_shortages (equipment s) []; mret (Some sh)
        else mret None);
  mret {| timestamp := now;
          query_filter_echo := filter_or_full query_filter;
          beds := bd;
          staff := sf;
          snap_equipment :=
            if filter_selects query_filter "equipment_only"
            then Some (equipment s) else None;
          equipment_shortages := eq |}.

(** ** Runs of the store *)

(** The values the global can take: the initial value and whatever the
    three mutating tools make of it. *)
Inductive reachable : HospitalState → Prop :=
| reach_init : reachable HOSPITAL_STATE
| reach_reserve_bed now bed_id patient_name prio s :
    reachable s →
    reachable (reserve_bed now bed_id patient_name prio s).2
| reach_reserve_equipment equipment_type patient_name quantity s :
    reachable s →
    reachable (reserve_equipment equipment_type patient_name quantity s).2
| reach_assign_staff staff_name spec patient_name s :
    reachable s →
    reachable (assign_staff staff_name spec patient_name s).2.

(** What the read-only tools rely on, and every run keeps. *)
Record inventory_ok (s : HospitalState) : Prop := {
  ok_icu : icu_beds s ≠ [];
  ok_physicians :
    ∃ l, dict_get "ed_physicians" (staff_available s) = Some l ∧ l ≠ [] ∧
         Forall (λ p, is_Some (current_load p)) l;
  ok_nurses : is_Some (dict_get "ed_nurses" (staff_available s));
  ok_cardiologists : is_Some (dict_get "cardiologists" (staff_available s));
  ok_trauma_surgeons :
    is_Some (dict_get "trauma_surgeons" (staff_available s));
  ok_totals : Forall (λ kv : string * Pool, 0 < total kv.2) (equipment s);
  ok_ventilators :
    ∃ v, dict_get "ventilators" (equipment s) = Some v ∧ 0 ≤ available v
}.

(** The bed a call on [bed_id] is about: the ICU dict is consulted first. *)
Definition find_bed (bed_id : string) (s : HospitalState) : option Bed :=
  match dict_get bed_id (icu_beds s) with
  | Some bed => Some bed
  | None => dict_get bed_id (ed_trauma_bays s)
  end.

Record BedCall := {
  call_time : string;
  call_bed_id : string;
  call_patient : string;
  call_priority : string
}.

(** A sequence of [reserve_bed] calls, with the result of each. *)
Fixpoint reserve_beds (calls : list BedCall) (s : HospitalState)
  : list BedReservation * HospitalState :=
  match calls with
  | [] => ([], s)
  | c :: calls' =>
      let '(r, s1) :=
        reserve_bed (call_time c) (call_bed_id c) (call_patient c)
          (call_priority c) s in
      let '(rs, s2) := reserve_beds calls' s1 in
      (r :: rs, s2)
  end.

(** The successful reservations of [bed_id] among the results. *)
Definition successes_on (bed_id : string) (rs : list BedReservation)
  : list BedReservation :=
  filter (λ r, rb_success r = true ∧ rb_bed_id r = bed_id) rs.

(** A sequence of [reserve_equipment] calls on one equipment type. *)
Fixpoint reserve_equipments (equipment_type : string)
    (calls : list (string * Z)) (s : HospitalState) : HospitalState :=
  match calls with
  | [] => s
  | (patient_name, quantity) :: calls' =>
      reserve_equipments equipment_type calls'
        (reserve_equipment equipment_type patient_name quantity s).2
  end.

(** How a failure message names the bed: the ICU branch says "Bed", the
    trauma branch "Trauma bay". *)
Definition bed_label (bed_id : string) (s : HospitalState) : string :=
  match dict_get bed_id (icu_beds s) with
  | Some _ => "Bed "
  | None => "Trauma bay "
  end.

(** The pool bound I2. *)
Definition pool_in_bounds (p : Pool) : Prop := 0 ≤ available p ≤ total p.

(** ** The specification's wording of the rules *)

(** Severity tier and survival estimate by score band. *)
Definition tier_of_score (score : Z) : string :=
  if decide (12 ≤ score) then "CRITICAL"
  else if decide (8 ≤ score ≤ 11) then "HIGH"
  else if decide (5 ≤ score ≤ 7) then "MODERATE"
  else "LOW".

Definition survival_of_score (score : Z) : Z :=
  if decide (12 ≤ score) then Z.max 40 (95 - 4 * score)
  else if decide (8 ≤ score ≤ 11) then Z.max 60 (100 - 3 * score)
  else if decide (5 ≤ score ≤ 7) then Z.max 80 (100 - 2 * score)
  else 95.





(** The points one symptom adds, read off the body of the symptom loop. *)
Definition symptom_points (symptom : string) : Z :=
  default 0 (scan_keywords critical_keywords (lower symptom)).

(** Severity order of the conflict report. *)
Definition severity_rank (sev : string) : nat :=
  if decide (sev = "CRITICAL") then 3
  else if decide (sev = "HIGH") then 2
  else if decide (sev = "MODERATE") then 1
  else 0.

Definition max_severity (sevs : list string) : string :=
  foldr (λ a b, if (severity_rank b <? severity_rank a)%nat then a else b)
    "NONE" sevs.

(** The four rules, as (conflict type, severity) when triggered.
    Occupancy is the share of ICU beds that are not available. *)
Definition icu_rule (s : HospitalState) : option (string * string) :=
  let tot := len (icu_beds s) in
  let occupied := tot - count_available (icu_beds s) in
  if decide (90 * tot ≤ 100 * occupied) then Some ("ICU_CAPACITY", "CRITICAL")
  else if decide (75 * tot ≤ 100 * occupied) then Some ("ICU_CAPACITY", "HIGH")
  else None.

Definition trauma_rule (s : HospitalState) : option (string * string) :=
  if decide (count_available (ed_trauma_bays s) = 0)
  then Some ("TRAUMA_BAY_SHORTAGE", "HIGH") else None.

Definition physician_rule (s : HospitalState) : option (string * string) :=
  let l := default [] (dict_get "ed_physicians" (staff_available s)) in
  if decide (Exists (λ p, 5 ≤ default 0 (current_load p)) l)
  then Some ("PHYSICIAN_OVERLOAD", "MODERATE") else None.

Definition ventilator_rule (s : HospitalState) : option (string * string) :=
  match available <$> dict_get "ventilators" (equipment s) with
  | Some 0 => Some ("VENTILATOR_SHORTAGE", "CRITICAL")
  | Some 1 => Some ("VENTILATOR_LIMITED", "HIGH")
  | _ => None
  end.

(** The (type, severity) pair of a conflict record. *)
Definition conflict_key (c : Conflict) : string * string :=
  (c_type c, c_severity c).

Definition triggered_rules (s : HospitalState) : list (string * string) :=
  omap id [icu_rule s; trauma_rule s; physician_rule s; ventilator_rule s].

(** A pool is short when it is exhausted or at least 80% of it is in use. *)
Definition is_short (p : Pool) : Prop :=
  available p = 0 ∨ 80 * total p ≤ 100 * (total p - available p).

#[global] Instance is_short_dec p : Decision (is_short p).
Proof. unfold is_short. apply _. Defined.

(** The optional filter selects a section: it is absent, the section's own
    name, or ['full_state']. *)
Definition selects (query_filter : option string) (name : string) : Prop :=
  query_filter = None ∨ query_filter = Some name ∨
  query_filter = Some "full_state".

(** [ids] lists the beds of [beds] whose status is one of [statuses]. *)
Definition lists_beds (statuses : list string) (beds : dict Bed)
    (ids : list string) : Prop :=
  ∀ id, id ∈ ids ↔ ∃ bed, (id, bed) ∈ beds ∧ status bed ∈ statuses.


Definition is_minimum (m : Z) (xs : list Z) : Prop :=
  m ∈ xs ∧ Forall (Z.le m) xs.

Definition is_maximum (m : Z) (xs : list Z) : Prop :=
  m ∈ xs ∧ Forall (Z.ge m) xs.

(** Minimum, maximum and average of the physician loads. *)
Definition workload_ok (loads : list Z) (w : WorkloadSummary) : Prop :=
  is_minimum (least_busy w) loads ∧
  is_maximum (most_busy w) loads ∧
  average_load w
  = (inject_Z (foldr Z.add 0%Z loads) / inject_Z (len loads))%Q.

(** The shortage list has one entry per short pool, in inventory order,
    and each entry starts with the name of its equipment type. *)
Definition names_short_pools (pools : dict Pool) (shortages : list string)
  : Prop :=
  Forall2 (λ (entry : string) (kv : string * Pool),
             String.prefix (kv.1 +:+ ": ") entry = true)
    shortages (filter (λ kv, is_short kv.2) pools).

(** A number printer for the examples. *)
Definition str_floor (q : Q) : string := pretty (Qfloor q).

(** ** [check_bed_availability] *)

(** ['available_beds'] is a list of bed ids for the two bed dicts and a
    text for the treatment rooms. *)
Record BedAvailability := {
  ba_department : string;
  ba_available_beds : list string + string;
  ba_reserved_beds : option (list string);
  ba_count : Z;
  ba_total_beds : Z;
  ba_occupancy_rate : option Q;
  ba_estimated_wait_minutes : Z
}.

(** [0 if available else wait]: an empty list is falsy. *)
Definition wait_unless {A} (available : list A) (wait : Z) : Z :=
  match available with
  | [] => wait
  | _ :: _ => 0
  end.

(** A department outside the three branches falls off the end of the
    function, which returns [None]. *)
Definition check_bed_availability (department : string) (s : HospitalState)
  : py (option BedAvailability) :=
  if decide (department = "ICU") then
    let avail := bed_ids_with ["available"] (icu_beds s) in
    let reserved := bed_ids_with ["reserved"] (icu_beds s) in
    q ← py_div (len (icu_beds s) - len avail) (len (icu_beds s));
    mret (Some {| ba_department := "ICU";
                  ba_available_beds := inl avail;
                  ba_reserved_beds := Some reserved;
                  ba_count := len avail;
                  ba_total_beds := len (icu_beds s);
                  ba_occupancy_rate := Some (q * 100)%Q;
                  ba_estimated_wait_minutes := wait_unless avail 45 |})
  else if decide (department = "ED_Trauma") then
    let avail := bed_ids_with ["available"] (ed_trauma_bays s) in
    let reserved := bed_ids_with ["reserved"] (ed_trauma_bays s) in
    mret (Some {| ba_department := "ED_Trauma";
                  ba_available_beds := inl avail;
                  ba_reserved_beds := Some reserved;
                  ba_count := len avail;
                  ba_total_beds := len (ed_trauma_bays s);
                  ba_occupancy_rate := None;
                  ba_estimated_wait_minutes := wait_unless avail 20 |})
  else if decide (department = "ED_Treatment") then
    let count := rooms_available (ed_treatment_rooms s) in
    let tot := rooms_total (ed_treatment_rooms s) in
    q ← py_div (tot - count) tot;
    mret (Some {| ba_department := "ED_Treatment";
                  ba_available_beds :=
                    inr (pretty count +:+ " treatment rooms");
                  ba_reserved_beds := None;
                  ba_count := count;
                  ba_total_beds := tot;
                  ba_occupancy_rate := Some (q * 100)%Q;
                  ba_estimated_wait_minutes :=
                    if 0 <? count then 0 else 35 |})
  else mret None.

(** ** [get_available_staff] *)

(** [sorted(l, key=key)]: ascending and stable.  An element goes in front
    of the first later element whose key is not smaller. *)
Fixpoint insert_by_key (key : StaffMember → Z) (x : StaffMember)
    (l : list StaffMember) : list StaffMember :=
  match l with
  | [] => [x]
  | y :: l' =>
      if key x <=? key y then x :: y :: l' else y :: insert_by_key key x l'
  end.

Definition sorted_by (key : StaffMember → Z) (l : list StaffMember)
  : list StaffMember :=
  foldr (insert_by_key key) [] l.

(** The error dict carries only ['error'] and an empty
    ['available_staff']; the other keys are then [None]. *)
Record StaffQuery := {
  sq_error : option string;
  sq_specialty : option string;
  sq_available_staff : list StaffMember;
  sq_total_count : option Z;
  sq_least_busy : option StaffMember
}.

Definition staff_query_unknown (spec : string) : StaffQuery :=
  {| sq_error := Some ("Unknown specialty: " +:+ spec);
     sq_specialty := None; sq_available_staff := [];
     sq_total_count := None; sq_least_busy := None |}.

Definition load_key (x : StaffMember) : Z := default 0 (current_load x).
Definition patients_key (x : StaffMember) : Z :=
  default 0 (current_patients x).

(** [s.get('available', True)]. *)
Definition is_free (m : StaffMember) : Prop :=
  default true (staff_available_flag m) = true.

#[global] Instance is_free_dec m : Decision (is_free m).
Proof. unfold is_free. apply _. Defined.

Definition get_available_staff (spec : string) (s : HospitalState)
  : StaffQuery :=
  match dict_get spec specialty_map with
  | None => staff_query_unknown spec
  | Some key =>
      if decide (key = "") then staff_query_unknown spec
      else
        let staff_list := default [] (dict_get key (staff_available s)) in
        let sorted_staff :=
          if decide (key = "ed_physicians") then sorted_by load_key staff_list
          else if decide (key = "ed_nurses")
               then sorted_by patients_key staff_list
               else filter is_free staff_list in
        {| sq_error := None;
           sq_specialty := Some spec;
           sq_available_staff := sorted_staff;
           sq_total_count := Some (len sorted_staff);
           sq_least_busy := head sorted_staff |}
  end.

(** ** What no tool call changes *)

Definition known_status (st : string) : Prop :=
  st ∈ ["available"; "occupied"; "reserved"].

(** The bed ids, the staff names under each specialty, the equipment types
    with their totals and the treatment rooms are those of the initial
    value, and every bed status is one of the three the code writes. *)
Record shape_ok (s : HospitalState) : Prop := {
  shape_icu_ids : dict_keys (icu_beds s) = dict_keys (icu_beds HOSPITAL_STATE);
  shape_trauma_ids :
    dict_keys (ed_trauma_bays s) = dict_keys (ed_trauma_bays HOSPITAL_STATE);
  shape_icu_status :
    Forall (λ kv : string * Bed, known_status (status kv.2)) (icu_beds s);
  shape_trauma_status :
    Forall (λ kv : string * Bed, known_status (status kv.2))
      (ed_trauma_bays s);
  shape_rooms : ed_treatment_rooms s = ed_treatment_rooms HOSPITAL_STATE;
  shape_staff :
    (λ kv : string * list StaffMember, (kv.1, name <$> kv.2))
      <$> staff_available s
    = (λ kv : string * list StaffMember, (kv.1, name <$> kv.2))
      <$> staff_available HOSPITAL_STATE;
  shape_equipment :
    (λ kv : string * Pool, (kv.1, total kv.2)) <$> equipment s
    = (λ kv : string * Pool, (kv.1, total kv.2)) <$> equipment HOSPITAL_STATE
}.

(** The points each input adds on its own, read off the scoring branches. *)
Definition age_points (age : Z) : Z := (score_age age (0, [])).1.

Definition heart_rate_points (hr : Q) : Z :=
  if Qltb 130 hr || Qltb hr 50 then 3
  else if Qltb 110 hr || Qltb hr 60 then 2 else 0.

Definition blood_pressure_points (bp_sys : Q) : Z :=
  if Qltb bp_sys 90 then 4 else if Qltb 180 bp_sys then 2 else 0.

Definition oxygen_points (o2_sat : Q) : Z :=
  if Qltb o2_sat 88 then 5
  else if Qltb o2_sat 92 then 3
  else if Qltb o2_sat 95 then 1 else 0.

(** Every branch that adds points adds between 1 and 5 of them and exactly
    one risk factor. *)
Definition points_match_factors (st : score_state) : Prop :=
  len st.2 ≤ st.1 ≤ 5 * len st.2.

(** Where a bed would be booked: reserve_bed looks in the ICU dict first
    and grants only an 'available' bed. *)
Inductive bed_place := InICU | InTrauma.

Definition grantable (bed_id : string) (s : HospitalState)
  : option bed_place :=
  match dict_get bed_id (icu_beds s) with
  | Some bed => if decide (status bed = "available") then Some InICU else None
  | None =>
      match dict_get bed_id (ed_trauma_bays s) with
      | Some bed =>
          if decide (status bed = "available") then Some InTrauma else None
      | None => None
      end
  end.

(** The state after a grant in [place]. *)
Definition book (place : bed_place) (now bed_id patient_name prio : string)
    (s : HospitalState) : HospitalState :=
  match place with
  | InICU =>
      set_icu_beds
        (dict_set bed_id (reserved_bed patient_name prio now) (icu_beds s)) s
  | InTrauma =>
      set_ed_trauma_bays
        (dict_set bed_id (reserved_bed patient_name prio now)
           (ed_trauma_bays s)) s
  end.

(** What a workload-sorted staff report promises about the list [l] it
    was made from: everybody is listed, in ascending order of [key], members
    with the same key in their original order, and the least busy member
    is one with the smallest key. *)
Definition sorted_report (key : StaffMember → Z) (l : list StaffMember)
    (r : StaffQuery) : Prop :=
  sq_error r = None ∧
  sq_available_staff r ≡ₚ l ∧
  StronglySorted (λ a b, key a ≤ key b) (sq_available_staff r) ∧
  (∀ c, filter (λ m, key m = c) (sq_available_staff r)
        = filter (λ m, key m = c) l) ∧
  sq_total_count r = Some (len l) ∧
  match sq_least_busy r with
  | Some m => m ∈ l ∧ ∀ m', m' ∈ l → key m ≤ key m'
  | None => l = []
  end.

(** One call of a mutating tool.  Equipment requests are taken with a
    non-negative quantity here. *)
Inductive tool_step (s : HospitalState) : HospitalState → Prop :=
| step_reserve_bed now bed_id patient_name prio :
    tool_step s (reserve_bed now bed_id patient_name prio s).2
| step_reserve_equipment equipment_type patient_name quantity :
    0 ≤ quantity →
    tool_step s (reserve_equipment equipment_type patient_name quantity s).2
| step_assign_staff staff_name spec patient_name :
    tool_step s (assign_staff staff_name spec patient_name s).2.

(** The severity rank a rule contributes: 0 when it is not triggered. *)
Definition rule_rank (o : option (string * string)) : nat :=
  match o with
  | Some (_, sev) => severity_rank sev
  | None => 0
  end.

(** Nothing was given back between [s] and [s']: no bed became available
    again, no physician lost load, no ventilator returned to the pool. *)
Record nothing_released (s s' : HospitalState) : Prop := {
  nr_icu_len : len (icu_beds s') = len (icu_beds s);
  nr_icu : count_available (icu_beds s') ≤ count_available (icu_beds s);
  nr_trauma :
    count_available (ed_trauma_bays s') ≤ count_available (ed_trauma_bays s);
  nr_physicians :
    ∀ l, dict_get "ed_physicians" (staff_available s) = Some l →
         ∃ l', dict_get "ed_physicians" (staff_available s') = Some l' ∧
               (Exists (λ p, 5 ≤ default 0 (current_load p)) l →
                Exists (λ p, 5 ≤ default 0 (current_load p)) l');
  nr_ventilators :
    ∀ v, dict_get "ventilators" (equipment s) = Some v →
         ∃ v', dict_get "ventilators" (equipment s') = Some v' ∧
               available v' ≤ available v
}.

(** * Properties *)

(** ** Substring search *)

Lemma append_cons c (s t : string) : String c s +:+ t = String c (s +:+ t).
Proof. reflexivity. Qed.

Lemma prefix_spec (kw s : string) :
  String.prefix kw s = true ↔ ∃ post, s = kw +:+ post.
Proof.
  revert s. induction kw as [|c kw IH]; intros s.
  - split; [intros _; by exists s | by destruct s].
  - destruct s as [|c' s]; simpl.
    + split; [done | intros [post Hpost]; discriminate].
    + setoid_rewrite append_cons.
      destruct (Ascii.ascii_dec c c') as [->|Hne].
      * rewrite IH. split; intros [post Hpost]; exists post; congruence.
      * split; [done | intros [post Hpost]; congruence].
Qed.



(** ** The keyword scan finds the first matching table entry *)



Section ScorerFacts.
Variable str_num : Q → string.

Lemma score_symptom_fst st symptom :
  (score_symptom st symptom).1 = st.1 + symptom_points symptom.
Proof.
  destruct st as [sc rf]. unfold score_symptom, symptom_points.
  destruct (scan_keywords _ _); simpl; lia.
Qed.

Lemma score_symptoms_fst symptoms st :
  (score_symptoms symptoms st).1
  = st.1 + foldr Z.add 0 (symptom_points <$> symptoms).
Proof.
  unfold score_symptoms. revert st.
  induction symptoms as [|x symptoms IH]; intros st.
  - simpl. lia.
  - rewrite fmap_cons. cbn [fold_left foldr].
    rewrite IH, score_symptom_fst. lia.
Qed.


Lemma score_unfold now age vs symptoms :
  let st0 :=
    score_oxygen str_num (default (98 : Q) (vs !! "oxygen_saturation"))
      (score_blood_pressure str_num (default (120 : Q) (vs !! "bp_systolic"))
         (score_heart_rate str_num (default (80 : Q) (vs !! "heart_rate"))
            (score_age age (0, [])))) in
  let st := score_symptoms symptoms st0 in
  calculate_clinical_score str_num now age vs symptoms =
  {| clinical_score := st.1;
     severity := (classify st.1).1;
     survival_probability := (classify st.1).2;
     risk_factors := st.2;
     calculation_time := now |}.
Proof.
  intros st0 st. unfold calculate_clinical_score.
  fold st0. fold st. destruct st as [sc rf]. simpl.
  by destruct (classify sc).
Qed.

Lemma classify_spec sc :
  classify sc = (tier_of_score sc, survival_of_score sc).
Proof.
  unfold classify, tier_of_score, survival_of_score.
  repeat case_decide;
    repeat match goal with
           | |- context [?a <=? ?b] => destruct (Z.leb_spec a b)
           end; try lia; f_equal; f_equal; lia.
Qed.


(** C3: the severity tier and the survival probability of an assessment
    are the specification's function of its total score (12 and above:
    CRITICAL, max(40, 95 - 4 score); 8 to 11: HIGH, max(60, 100 - 3 score);
    5 to 7: MODERATE, max(80, 100 - 2 score); below 5: LOW, 95), so two
    inputs with the same score get the same tier and the same survival
    probability. *)
Theorem severity_function_of_score now age vs symptoms :
  let r := calculate_clinical_score str_num now age vs symptoms in
  severity r = tier_of_score (clinical_score r) ∧
  survival_probability r = survival_of_score (clinical_score r) ∧
  ∀ now' age' vs' symptoms',
    let r' := calculate_clinical_score str_num now' age' vs' symptoms' in
    clinical_score r' = clinical_score r →
    severity r' = severity r ∧
    survival_probability r' = survival_probability r.
Proof.
  assert (Hfun : ∀ n a v sy,
    let q := calculate_clinical_score str_num n a v sy in
    severity q = tier_of_score (clinical_score q) ∧
    survival_probability q = survival_of_score (clinical_score q)).
  { intros n a v sy q. subst q. rewrite score_unfold.
    cbn [severity survival_probability clinical_score].
    by rewrite classify_spec. }
  intros r. destruct (Hfun now age vs symptoms) as [Hsev Hsurv].
  split_and!; [done..|].
  intros now' age' vs' symptoms' r' Heq.
  destruct (Hfun now' age' vs' symptoms') as [Hsev' Hsurv'].
  fold r in Hsev, Hsurv. fold r' in Hsev', Hsurv'.
  rewrite Hsev, Hsurv, Hsev', Hsurv', Heq. done.
Qed.



(** C7, amended: two invocations on the same input agree on the score,
    the severity, the survival probability and the risk factors; the
    calculation_time field is the clock reading of each invocation. *)
Theorem score_deterministic_except_clock now1 now2 age vs symptoms :
  let r1 := calculate_clinical_score str_num now1 age vs symptoms in
  let r2 := calculate_clinical_score str_num now2 age vs symptoms in
  clinical_score r1 = clinical_score r2 ∧
  severity r1 = severity r2 ∧
  survival_probability r1 = survival_probability r2 ∧
  risk_factors r1 = risk_factors r2 ∧
  calculation_time r1 = now1 ∧
  calculation_time r2 = now2.
Proof. intros r1 r2. subst r1 r2. rewrite !score_unfold. done. Qed.
End ScorerFacts.

(** The first table entry wins, whatever the case of the symptom: "chest
    pain" (3) comes before "stroke" (4). *)
Example first_keyword_wins :
  symptom_points "Chest Pain after a STROKE" = 3 ∧
  symptom_points "stroke, then chest pain" = 3 ∧
  symptom_points "mild headache" = 0.
Proof. done. Qed.

(** Matching only looks at the lower-cased symptom. *)
Lemma symptom_points_case_insensitive (s1 s2 : string) :
  lower s1 = lower s2 → symptom_points s1 = symptom_points s2.
Proof. unfold symptom_points. by intros ->. Qed.

Lemma lower_idempotent (s : string) : lower (lower s) = lower s.
Proof.
  induction s as [|c s IH]; [done|]. cbn [lower]. rewrite IH. f_equal.
  unfold ascii_lower.
  destruct ((65 <=? N_of_ascii c) && (N_of_ascii c <=? 90))%N eqn:Hupper;
    [|by rewrite Hupper].
  apply andb_prop in Hupper as [Hlo%N.leb_le Hhi%N.leb_le].
  rewrite N_ascii_embedding by lia.
  destruct (N.leb_spec 65 (N_of_ascii c + 32)),
    (N.leb_spec (N_of_ascii c + 32) 90); simpl; try done; lia.
Qed.

Lemma severity_function_of_score_witness :
  severity (calculate_clinical_score str_floor "t2" 70
              {[ "bp_systolic" := (85 : Q) ]} ["seizure"])
  = severity (calculate_clinical_score str_floor "t1" 80
                {[ "oxygen_saturation" := (90 : Q) ]} ["chest pain"]).
Proof.
  apply (severity_function_of_score str_floor "t1" 80
           {[ "oxygen_saturation" := (90 : Q) ]} ["chest pain"]).
  vm_compute. reflexivity.
Defined.


(** C7 as stated fails: the same input scored at two clock readings gives
    two different results. *)
Lemma score_results_differ_across_runs :
  calculate_clinical_score str_floor "2024-10-30T08:00:00" 40 ∅ ["cough"]
  ≠ calculate_clinical_score str_floor "2024-10-30T08:00:01" 40 ∅ ["cough"].
Proof. vm_compute. discriminate. Qed.

(** ** Dicts *)

Section DictFacts.
Context {V : Type}.
Implicit Types (d : dict V) (k : string) (v : V).

Lemma dict_get_set k k' v d :
  dict_get k' (dict_set k v d)
  = if decide (k = k') then Some v else dict_get k' d.
Proof.
  induction d as [|[k0 v0] d IH]; simpl.
  - by repeat case_decide.
  - repeat (case_decide; simpl; subst); try done; congruence.
Qed.

Lemma dict_get_set_eq k v d : dict_get k (dict_set k v d) = Some v.
Proof. rewrite dict_get_set. by case_decide. Qed.

Lemma dict_get_set_ne k k' v d :
  k ≠ k' → dict_get k' (dict_set k v d) = dict_get k' d.
Proof. intros. rewrite dict_get_set. by case_decide. Qed.

Lemma dict_set_not_nil k v d : dict_set k v d ≠ [].
Proof. destruct d as [|[k0 v0] d]; simpl; [done|]. by case_decide. Qed.

Lemma dict_set_Forall (P : string * V → Prop) k v d :
  P (k, v) → Forall P d → Forall P (dict_set k v d).
Proof.
  intros Hkv. induction 1 as [|[k0 v0] d Hx Hd IH]; simpl.
  - by constructor.
  - case_decide; by constructor.
Qed.

Lemma dict_get_Forall (P : string * V → Prop) k v d :
  Forall P d → dict_get k d = Some v → P (k, v).
Proof.
  induction 1 as [|[k0 v0] d Hx Hd IH]; simpl; [done|].
  case_decide; [|done]. intros [= <-]. by subst.
Qed.
End DictFacts.

(** ** [check_equipment] *)



(** ** [reserve_equipment] *)

Lemma reserve_equipment_unknown ty p q s :
  dict_get ty (equipment s) = None →
  re_success (reserve_equipment ty p q s).1 = false ∧
  (reserve_equipment ty p q s).2 = s.
Proof. unfold reserve_equipment. by intros ->. Qed.

(** A request above the available count is refused and changes nothing,
    whatever the sign of the quantity. *)
Lemma reserve_equipment_insufficient ty p q s pool :
  dict_get ty (equipment s) = Some pool →
  available pool < q →
  re_success (reserve_equipment ty p q s).1 = false ∧
  re_requested (reserve_equipment ty p q s).1 = Some q ∧
  re_available (reserve_equipment ty p q s).1 = Some (available pool) ∧
  (reserve_equipment ty p q s).2 = s.
Proof.
  unfold reserve_equipment. intros -> Hlt.
  destruct (Z.ltb_spec (available pool) q); [done | lia].
Qed.

(** Any other request succeeds and takes exactly [q] units off the pool,
    whatever the sign of the quantity. *)
Lemma reserve_equipment_success ty p q s pool :
  dict_get ty (equipment s) = Some pool →
  q ≤ available pool →
  re_success (reserve_equipment ty p q s).1 = true ∧
  re_remaining_available (reserve_equipment ty p q s).1
    = Some (available pool - q) ∧
  dict_get ty (equipment (reserve_equipment ty p q s).2)
    = Some {| available := available pool - q; total := total pool |} ∧
  ∀ ty', ty ≠ ty' →
    dict_get ty' (equipment (reserve_equipment ty p q s).2)
    = dict_get ty' (equipment s).
Proof.
  unfold reserve_equipment. intros -> Hle.
  destruct (Z.ltb_spec (available pool) q); [lia|]. simpl.
  split_and!; [done | done | apply dict_get_set_eq |].
  intros ty' Hne. by apply dict_get_set_ne.
Qed.

(** With non-negative quantities the pool bound is kept by every run. *)
Lemma reserve_equipments_in_bounds ty calls s pool :
  Forall (λ c : string * Z, 0 ≤ c.2) calls →
  dict_get ty (equipment s) = Some pool →
  pool_in_bounds pool →
  ∃ pool', dict_get ty (equipment (reserve_equipments ty calls s))
           = Some pool' ∧
           total pool' = total pool ∧ pool_in_bounds pool'.
Proof.
  intros Hcalls. revert s pool.
  induction Hcalls as [|[p q] calls Hq _ IH]; intros s pool Hget Hb.
  - by exists pool.
  - cbn [reserve_equipments]. simpl in Hq.
    destruct (Z.lt_ge_cases (available pool) q) as [Hlt|Hge].
    + destruct (reserve_equipment_insufficient ty p q s pool)
        as (_ & _ & _ & ->); [done..|]. by apply IH.
    + destruct (reserve_equipment_success ty p q s pool)
        as (_ & _ & Hget' & _); [done..|].
      destruct (IH _ _ Hget') as (pool' & ? & ? & ?).
      { unfold pool_in_bounds in *. simpl. lia. }
      exists pool'. done.
Qed.

(** C2 fails on the code: a negative quantity passes the
    [available < quantity] test and is subtracted, which pushes the
    available count of the initial ventilator pool (2 of 7) to 12 of 7. *)
Theorem negative_quantity_overfills_pool :
  dict_get "ventilators" (equipment HOSPITAL_STATE)
    = Some {| available := 2; total := 7 |} ∧
  pool_in_bounds {| available := 2; total := 7 |} ∧
  re_success
    (reserve_equipment "ventilators" "P004" (-10) HOSPITAL_STATE).1 = true ∧
  dict_get "ventilators"
    (equipment (reserve_equipments "ventilators" [("P004", -10)]
                  HOSPITAL_STATE))
    = Some {| available := 12; total := 7 |} ∧
  ¬ pool_in_bounds {| available := 12; total := 7 |}.
Proof.
  split_and!; [reflexivity | done | reflexivity | reflexivity |].
  unfold pool_in_bounds. simpl. lia.
Qed.

(** ** [reserve_bed] *)

Section ReserveBed.
Implicit Types (s : HospitalState) (bed : Bed).

Lemma find_bed_set_icu bed_id other bed s :
  is_Some (dict_get bed_id (icu_beds s)) →
  find_bed other (set_icu_beds (dict_set bed_id bed (icu_beds s)) s)
  = if decide (bed_id = other) then Some bed else find_bed other s.
Proof.
  intros [old Hold]. unfold find_bed. simpl. rewrite dict_get_set.
  case_decide; [done|]. done.
Qed.

Lemma find_bed_set_trauma bed_id other bed s :
  dict_get bed_id (icu_beds s) = None →
  find_bed other
    (set_ed_trauma_bays (dict_set bed_id bed (ed_trauma_bays s)) s)
  = if decide (bed_id = other) then Some bed else find_bed other s.
Proof.
  intros Hicu. unfold find_bed. simpl. rewrite dict_get_set.
  case_decide; [subst; by rewrite Hicu | done].
Qed.

(** The three ways a call can go, by the bed found under the id. *)
Lemma reserve_bed_not_found now bed_id p prio s :
  find_bed bed_id s = None →
  reserve_bed now bed_id p prio s
  = (bed_failure bed_id ("Bed ID " +:+ bed_id +:+ " not found in system"),
     s).
Proof.
  unfold find_bed, reserve_bed.
  destruct (dict_get bed_id (icu_beds s)); [done|]. by intros ->.
Qed.

Lemma reserve_bed_reserved now bed_id p prio s bed :
  find_bed bed_id s = Some bed → status bed = "reserved" →
  reserve_bed now bed_id p prio s
  = (bed_failure bed_id
       (bed_label bed_id s +:+ bed_id +:+ " already reserved for "
          +:+ str_opt (patient bed)), s).
Proof.
  unfold find_bed, reserve_bed, bed_label.
  destruct (dict_get bed_id (icu_beds s)) as [b|].
  - intros [= ->] Hst. by rewrite decide_True.
  - intros -> Hst. by rewrite decide_True.
Qed.

Lemma reserve_bed_unavailable now bed_id p prio s bed :
  find_bed bed_id s = Some bed →
  status bed ≠ "reserved" → status bed ≠ "available" →
  reserve_bed now bed_id p prio s
  = (bed_failure bed_id
       (bed_label bed_id s +:+ bed_id +:+ " not available (status: "
          +:+ status bed +:+ ")"), s).
Proof.
  unfold find_bed, reserve_bed, bed_label.
  destruct (dict_get bed_id (icu_beds s)) as [b|].
  - intros [= ->] Hr Ha. by rewrite !decide_False.
  - intros -> Hr Ha. by rewrite !decide_False.
Qed.

Lemma reserve_bed_available now bed_id p prio s bed :
  find_bed bed_id s = Some bed → status bed = "available" →
  rb_success (reserve_bed now bed_id p prio s).1 = true ∧
  rb_patient (reserve_bed now bed_id p prio s).1 = Some p ∧
  ∀ other,
    find_bed other (reserve_bed now bed_id p prio s).2
    = if decide (bed_id = other) then Some (reserved_bed p prio now)
      else find_bed other s.
Proof.
  unfold reserve_bed. intros Hfind Hst. unfold find_bed in Hfind.
  destruct (dict_get bed_id (icu_beds s)) as [b|] eqn:Hicu.
  - injection Hfind as ->.
    rewrite decide_False, decide_True by (done || by rewrite Hst).
    simpl. split_and!; [done..|]. intros other.
    by apply find_bed_set_icu.
  - rewrite Hfind.
    rewrite decide_False, decide_True by (done || by rewrite Hst).
    simpl. split_and!; [done..|]. intros other.
    by apply find_bed_set_trauma.
Qed.

Lemma reserve_bed_id now bed_id p prio s :
  rb_bed_id (reserve_bed now bed_id p prio s).1 = bed_id.
Proof.
  unfold reserve_bed.
  repeat (case_match; simpl; try done).
Qed.

(** A call succeeds exactly when the bed it names is available. *)
Lemma reserve_bed_success_iff now bed_id p prio s :
  rb_success (reserve_bed now bed_id p prio s).1 = true ↔
  ∃ bed, find_bed bed_id s = Some bed ∧ status bed = "available".
Proof.
  split.
  - destruct (find_bed bed_id s) as [bed|] eqn:Hfind.
    + destruct (decide (status bed = "reserved")) as [Hr|Hr].
      { by rewrite (reserve_bed_reserved _ _ _ _ _ _ Hfind Hr). }
      destruct (decide (status bed = "available")) as [Ha|Ha].
      { intros _. by exists bed. }
      by rewrite (reserve_bed_unavailable _ _ _ _ _ _ Hfind Hr Ha).
    + by rewrite (reserve_bed_not_found _ _ _ _ _ Hfind).
  - intros (bed & Hfind & Ha).
    by destruct (reserve_bed_available now bed_id p prio s bed) as [? _].
Qed.

Lemma reserve_bed_failure_unchanged now bed_id p prio s :
  rb_success (reserve_bed now bed_id p prio s).1 = false →
  (reserve_bed now bed_id p prio s).2 = s.
Proof.
  destruct (find_bed bed_id s) as [bed|] eqn:Hfind.
  - destruct (decide (status bed = "reserved")) as [Hr|Hr].
    { by rewrite (reserve_bed_reserved _ _ _ _ _ _ Hfind Hr). }
    destruct (decide (status bed = "available")) as [Ha|Ha].
    { destruct (reserve_bed_available now bed_id p prio s bed)
        as [-> _]; done. }
    by rewrite (reserve_bed_unavailable _ _ _ _ _ _ Hfind Hr Ha).
  - by rewrite (reserve_bed_not_found _ _ _ _ _ Hfind).
Qed.

(** A bed that is not available is out of reach of every call. *)
Lemma reserve_bed_keeps_held now bed_id p prio s other bed :
  find_bed other s = Some bed → status bed ≠ "available" →
  find_bed other (reserve_bed now bed_id p prio s).2 = Some bed ∧
  ¬ (rb_success (reserve_bed now bed_id p prio s).1 = true ∧
     rb_bed_id (reserve_bed now bed_id p prio s).1 = other).
Proof.
  intros Hother Hheld.
  destruct (rb_success (reserve_bed now bed_id p prio s).1) eqn:Hsucc.
  - apply reserve_bed_success_iff in Hsucc as (b & Hfind & Ha).
    destruct (reserve_bed_available now bed_id p prio s b)
      as (_ & _ & Hstate); [done..|].
    rewrite Hstate, reserve_bed_id.
    destruct (decide (bed_id = other)) as [->|Hne]; [congruence|].
    split; [done|]. by intros [_ ?].
  - rewrite reserve_bed_failure_unchanged by done.
    split; [done|]. by intros [? _].
Qed.

Lemma reserve_beds_cons c calls s :
  reserve_beds (c :: calls) s =
  let step :=
    reserve_bed (call_time c) (call_bed_id c) (call_patient c)
      (call_priority c) s in
  (step.1 :: (reserve_beds calls step.2).1, (reserve_beds calls step.2).2).
Proof.
  cbn [reserve_beds]. destruct (reserve_bed _ _ _ _ s) as [r s1].
  cbn [fst snd]. by destruct (reserve_beds calls s1) as [rs s2].
Qed.

Lemma reserve_beds_keeps_held calls s bed_id bed :
  find_bed bed_id s = Some bed → status bed ≠ "available" →
  find_bed bed_id (reserve_beds calls s).2 = Some bed ∧
  successes_on bed_id (reserve_beds calls s).1 = [].
Proof.
  revert s. induction calls as [|c calls IH]; intros s Hfind Hheld.
  - done.
  - rewrite reserve_beds_cons. cbn zeta. cbn [fst snd].
    destruct (reserve_bed_keeps_held (call_time c) (call_bed_id c)
                (call_patient c) (call_priority c) s bed_id bed)
      as [Hkept Hnot]; [done..|].
    destruct (IH _ Hkept Hheld) as [Hfinal Hnone].
    split; [done|].
    unfold successes_on in *. rewrite filter_cons_False by done. done.
Qed.

Lemma reserve_beds_at_most_one calls s bed_id :
  (length (successes_on bed_id (reserve_beds calls s).1) ≤ 1)%nat.
Proof.
  revert s. induction calls as [|c calls IH]; intros s.
  - simpl. lia.
  - rewrite reserve_beds_cons. cbn zeta. cbn [fst snd].
    set (step := reserve_bed _ _ _ _ s).
    unfold successes_on.
    destruct (decide (rb_success step.1 = true ∧ rb_bed_id step.1 = bed_id))
      as [[Hsucc Hid]|Hno].
    + rewrite filter_cons_True by done.
      pose proof Hsucc as Hs.
      apply reserve_bed_success_iff in Hs as (b & Hfind & Ha).
      destruct (reserve_bed_available (call_time c) (call_bed_id c)
                  (call_patient c) (call_priority c) s b)
        as (_ & _ & Hstate); [done..|].
      unfold step in Hid. rewrite reserve_bed_id in Hid.
      specialize (Hstate bed_id). rewrite decide_True in Hstate by done.
      destruct (reserve_beds_keeps_held calls step.2 bed_id _ Hstate)
        as [_ Hnone]; [done|].
      unfold successes_on in Hnone. rewrite Hnone. simpl. lia.
    + rewrite filter_cons_False by done. apply IH.
Qed.

Lemma reserve_beds_holder calls s r :
  r ∈ (reserve_beds calls s).1 → rb_success r = true →
  ∃ bed, find_bed (rb_bed_id r) (reserve_beds calls s).2 = Some bed ∧
         status bed = "reserved" ∧ patient bed = rb_patient r.
Proof.
  revert s. induction calls as [|c calls IH]; intros s.
  - simpl. by intros ?%elem_of_nil.
  - rewrite reserve_beds_cons. cbn zeta. cbn [fst snd].
    set (step := reserve_bed _ _ _ _ s).
    intros [->|Hin]%elem_of_cons Hsucc; [|by apply IH].
    pose proof Hsucc as Hs.
    apply reserve_bed_success_iff in Hs as (b & Hfind & Ha).
    destruct (reserve_bed_available (call_time c) (call_bed_id c)
                (call_patient c) (call_priority c) s b)
      as (_ & Hpat & Hstate); [done..|].
    specialize (Hstate (call_bed_id c)).
    rewrite decide_True in Hstate by done.
    unfold step. rewrite reserve_bed_id.
    destruct (reserve_beds_keeps_held calls step.2 (call_bed_id c) _ Hstate)
      as [Hfinal _]; [done|].
    eexists. split; [exact Hfinal|]. by rewrite Hpat.
Qed.
End ReserveBed.

(** C1: a call reserves the bed for the caller exactly when the bed is
    'available'; on a 'reserved' bed it fails and reports who holds it, on
    any other status it fails as not available, on an unknown id as not
    found, and a failing call returns the state it was given.  Over any
    sequence of calls a bed id is therefore granted at most once, a bed that
    is held stays with its holder, and every granted bed is still reserved
    for the patient of the granting call at the end. *)
Theorem reserve_bed_exclusive now bed_id patient_name prio s calls :
  (rb_success (reserve_bed now bed_id patient_name prio s).1 = true ↔
   ∃ bed, find_bed bed_id s = Some bed ∧ status bed = "available") ∧
  (rb_success (reserve_bed now bed_id patient_name prio s).1 = true →
   rb_patient (reserve_bed now bed_id patient_name prio s).1
     = Some patient_name ∧
   find_bed bed_id (reserve_bed now bed_id patient_name prio s).2
     = Some (reserved_bed patient_name prio now) ∧
   ∀ other, other ≠ bed_id →
     find_bed other (reserve_bed now bed_id patient_name prio s).2
     = find_bed other s) ∧
  (∀ bed, find_bed bed_id s = Some bed → status bed = "reserved" →
   reserve_bed now bed_id patient_name prio s
   = (bed_failure bed_id
        (bed_label bed_id s +:+ bed_id +:+ " already reserved for "
           +:+ str_opt (patient bed)), s)) ∧
  (∀ bed, find_bed bed_id s = Some bed →
   status bed ≠ "reserved" → status bed ≠ "available" →
   reserve_bed now bed_id patient_name prio s
   = (bed_failure bed_id
        (bed_label bed_id s +:+ bed_id +:+ " not available (status: "
           +:+ status bed +:+ ")"), s)) ∧
  (find_bed bed_id s = None →
   reserve_bed now bed_id patient_name prio s
   = (bed_failure bed_id ("Bed ID " +:+ bed_id +:+ " not found in system"),
      s)) ∧
  (rb_success (reserve_bed now bed_id patient_name prio s).1 = false →
   (reserve_bed now bed_id patient_name prio s).2 = s) ∧
  (∀ id, (length (successes_on id (reserve_beds calls s).1) ≤ 1)%nat) ∧
  (∀ id bed, find_bed id s = Some bed → status bed ≠ "available" →
   find_bed id (reserve_beds calls s).2 = Some bed) ∧
  (∀ r, r ∈ (reserve_beds calls s).1 → rb_success r = true →
   ∃ bed, find_bed (rb_bed_id r) (reserve_beds calls s).2 = Some bed ∧
          status bed = "reserved" ∧ patient bed = rb_patient r).
Proof.
  split_and!.
  - apply reserve_bed_success_iff.
  - intros (bed & Hfind & Ha)%reserve_bed_success_iff.
    destruct (reserve_bed_available now bed_id patient_name prio s bed)
      as (_ & Hpat & Hstate); [done..|].
    split_and!; [done | |].
    + rewrite Hstate. by rewrite decide_True.
    + intros other Hne. rewrite Hstate. by rewrite decide_False.
  - intros bed. apply reserve_bed_reserved.
  - intros bed. apply reserve_bed_unavailable.
  - apply reserve_bed_not_found.
  - apply reserve_bed_failure_unchanged.
  - intros id. apply reserve_beds_at_most_one.
  - intros id bed Hfind Hheld.
    by destruct (reserve_beds_keeps_held calls s id bed).
  - apply reserve_beds_holder.
Qed.

Lemma reserve_bed_exclusive_witness :
  find_bed "ICU-3"
    (reserve_bed "2024-10-30T09:00" "ICU-3" "Maria" "CRITICAL"
       HOSPITAL_STATE).2
  = Some (reserved_bed "Maria" "CRITICAL" "2024-10-30T09:00").
Proof.
  destruct (reserve_bed_exclusive "2024-10-30T09:00" "ICU-3" "Maria"
              "CRITICAL" HOSPITAL_STATE [])
    as (_ & Hgranted & _).
  apply Hgranted. reflexivity.
Defined.

(** Two patients asking for the same free bed: the first gets it, the
    second is told who holds it, and an occupied bed is refused. *)
Example second_caller_is_refused :
  (reserve_beds
     [ {| call_time := "09:00"; call_bed_id := "ICU-3";
          call_patient := "Maria"; call_priority := "CRITICAL" |};
       {| call_time := "09:01"; call_bed_id := "ICU-3";
          call_patient := "John"; call_priority := "CRITICAL" |};
       {| call_time := "09:02"; call_bed_id := "TB-1";
          call_patient := "John"; call_priority := "EMERGENCY" |} ]
     HOSPITAL_STATE).1
  = [ {| rb_success := true; rb_bed_id := "ICU-3";
         rb_department := Some "ICU"; rb_patient := Some "Maria";
         rb_message := "ICU bed ICU-3 reserved for Maria" |};
      bed_failure "ICU-3" "Bed ICU-3 already reserved for Maria";
      bed_failure "TB-1" "Trauma bay TB-1 not available (status: occupied)" ].
Proof. reflexivity. Qed.

(** ** Every value of the global keeps the inventory usable *)

Section Reachable.
Implicit Types (s : HospitalState).

Lemma inventory_ok_init : inventory_ok HOSPITAL_STATE.
Proof.
  split; try done.
  - eexists. split_and!; [reflexivity | done |].
    repeat constructor; by eexists.
  - repeat constructor; simpl; lia.
  - eexists. split; [reflexivity|]. simpl. lia.
Qed.

Lemma reserve_bed_frame now bed_id p prio s :
  staff_available (reserve_bed now bed_id p prio s).2 = staff_available s ∧
  equipment (reserve_bed now bed_id p prio s).2 = equipment s ∧
  (icu_beds s ≠ [] → icu_beds (reserve_bed now bed_id p prio s).2 ≠ []).
Proof.
  unfold reserve_bed.
  repeat (case_match; simpl; try done).
  split_and!; [done..|]. intros _. apply dict_set_not_nil.
Qed.

Lemma reserve_bed_inventory_ok now bed_id p prio s :
  inventory_ok s → inventory_ok (reserve_bed now bed_id p prio s).2.
Proof.
  intros [].
  destruct (reserve_bed_frame now bed_id p prio s) as (Hst & Heq & Hicu).
  split; rewrite ?Hst, ?Heq; auto.
Qed.

Lemma reserve_equipment_frame ty p q s :
  icu_beds (reserve_equipment ty p q s).2 = icu_beds s ∧
  staff_available (reserve_equipment ty p q s).2 = staff_available s.
Proof. unfold reserve_equipment. by repeat (case_match; simpl). Qed.

Lemma reserve_equipment_inventory_ok ty p q s :
  inventory_ok s → inventory_ok (reserve_equipment ty p q s).2.
Proof.
  intros [].
  destruct (reserve_equipment_frame ty p q s) as (Hicu & Hst).
  split; rewrite ?Hicu, ?Hst; auto.
  - unfold reserve_equipment.
    destruct (dict_get ty (equipment s)) as [pool|] eqn:Hget; [|done].
    case_match; [done|]. simpl.
    apply dict_set_Forall; [|done]. simpl.
    by apply (dict_get_Forall _ _ _ _ ok_totals0 Hget).
  - destruct ok_ventilators0 as (v & Hv & Hnonneg).
    unfold reserve_equipment.
    destruct (dict_get ty (equipment s)) as [pool|] eqn:Hget;
      [|by exists v].
    destruct (Z.ltb_spec (available pool) q); [by exists v|]. simpl.
    rewrite dict_get_set. case_decide as Hty.
    + subst ty. eexists. split; [done|]. simpl.
      assert (pool = v) as -> by congruence. lia.
    + by exists v.
Qed.

Lemma update_staff_not_nil key n l m' l' :
  update_staff key n l = Some (m', l') → l' ≠ [].
Proof.
  destruct l as [|m l]; simpl; [done|].
  case_decide; [by intros [= <- <-]|].
  destruct (update_staff key n l) as [[? ?]|]; simpl; [|done].
  by intros [= <- <-].
Qed.

Lemma update_staff_loads n l m' l' :
  update_staff "ed_physicians" n l = Some (m', l') →
  Forall (λ p, is_Some (current_load p)) l →
  Forall (λ p, is_Some (current_load p)) l'.
Proof.
  revert m' l'. induction l as [|m l IH]; intros m' l'; simpl; [done|].
  intros Hupd [Hm Hl]%Forall_cons. case_decide.
  - injection Hupd as <- <-. constructor; [by eexists | done].
  - destruct (update_staff _ n l) as [[m1 l1]|]; simpl in Hupd; [|done].
    injection Hupd as <- <-. constructor; [done|]. by eapply IH.
Qed.

Lemma assign_staff_frame n spec p s :
  icu_beds (assign_staff n spec p s).2 = icu_beds s ∧
  equipment (assign_staff n spec p s).2 = equipment s.
Proof. unfold assign_staff. by repeat (case_match; simpl). Qed.

(** What a successful assignment writes back: the list under one key. *)
Lemma assign_staff_staff n spec p s :
  staff_available (assign_staff n spec p s).2 = staff_available s ∨
  ∃ key m' l',
    update_staff key n (default [] (dict_get key (staff_available s)))
      = Some (m', l') ∧
    staff_available (assign_staff n spec p s).2
      = dict_set key l' (staff_available s).
Proof.
  unfold assign_staff.
  destruct (dict_get spec specialty_map) as [key|]; [|by left].
  case_decide; [by left|].
  destruct (update_staff key n _) as [[m' l']|] eqn:Hupd; [|by left].
  right. by exists key, m', l'.
Qed.

Lemma assign_staff_inventory_ok n spec p s :
  inventory_ok s → inventory_ok (assign_staff n spec p s).2.
Proof.
  intros [].
  destruct (assign_staff_frame n spec p s) as (Hicu & Heq).
  destruct (assign_staff_staff n spec p s)
    as [Hsame | (key & m' & l' & Hupd & Hst)].
  { split; rewrite ?Hicu, ?Heq, ?Hsame; auto. }
  split; rewrite ?Hicu, ?Heq, ?Hst; auto.
  - destruct ok_physicians0 as (l & Hl & Hne & Hloads).
    rewrite dict_get_set. case_decide as Hkey; [|by exists l].
    subst key. rewrite Hl in Hupd. simpl in Hupd.
    exists l'. split_and!; [done | by eapply update_staff_not_nil |].
    by eapply update_staff_loads.
  - rewrite dict_get_set. by case_decide.
  - rewrite dict_get_set. by case_decide.
  - rewrite dict_get_set. by case_decide.
Qed.

Lemma reachable_inventory_ok s : reachable s → inventory_ok s.
Proof.
  induction 1.
  - apply inventory_ok_init.
  - by apply reserve_bed_inventory_ok.
  - by apply reserve_equipment_inventory_ok.
  - by apply assign_staff_inventory_ok.
Qed.
End Reachable.

(** ** [detect_resource_conflicts] *)

(** Closes "some record with this key was appended" by exhibiting the
    record the check built. *)
Ltac record_appended := eexists; split; [|reflexivity]; reflexivity.

Section Detect.
Implicit Types (s : HospitalState) (st : detect_state).

(** The float comparison [k <= a / tot * 100] is the integer comparison
    [k * tot <= 100 * a] on the exact quotient. *)
Lemma Qle_bool_percent (k a tot : Z) :
  0 < tot →
  Qle_bool (inject_Z k) (inject_Z a / inject_Z tot * 100)
  = bool_decide (k * tot ≤ 100 * a).
Proof.
  intros Htot. destruct tot as [|p|p]; try lia.
  apply eq_true_iff_eq. rewrite Qle_bool_iff, bool_decide_eq_true.
  unfold Qle, Qdiv, Qmult, Qinv, inject_Z. simpl.
  rewrite !Pos.mul_1_r, !Z.mul_1_r. lia.
Qed.

Lemma len_pos {A} (l : list A) : l ≠ [] → 0 < len l.
Proof. destruct l; [done|]. unfold len. simpl. lia. Qed.

Lemma filter_nil_iff {A} (P : A → Prop) `{∀ x, Decision (P x)} (l : list A) :
  filter P l = [] ↔ ¬ Exists P l.
Proof.
  induction l as [|x l IH]; simpl.
  - split; [intros _ ?%Exists_nil; done | done].
  - rewrite Exists_cons. destruct (decide (P x)).
    + rewrite filter_cons_True by done. split; [done | tauto].
    + rewrite filter_cons_False by done. tauto.
Qed.

(** Each check either leaves the locals alone or appends one record;
    which of the two is what the matching rule says. *)
Lemma check_icu_rule s st :
  icu_beds s ≠ [] →
  let occ :=
    (inject_Z (len (icu_beds s) - count_available (icu_beds s))
       / inject_Z (len (icu_beds s)) * 100)%Q in
  let after := check_icu occ (count_available (icu_beds s)) st in
  (icu_rule s = Some ("ICU_CAPACITY", "CRITICAL") ∧
   ∃ c, conflict_key c = ("ICU_CAPACITY", "CRITICAL") ∧
        after = (st.1 ++ [c], "CRITICAL")) ∨
  (icu_rule s = Some ("ICU_CAPACITY", "HIGH") ∧
   ∃ c, conflict_key c = ("ICU_CAPACITY", "HIGH") ∧
        after = (st.1 ++ [c],
                 if decide (st.2 ≠ "CRITICAL") then "HIGH" else st.2)) ∨
  (icu_rule s = None ∧ after = st).
Proof.
  intros Hicu occ after. subst occ after. destruct st as [cs sev].
  unfold icu_rule, check_icu.
  change (90 : Q) with (inject_Z 90). change (75 : Q) with (inject_Z 75).
  rewrite !Qle_bool_percent by by apply len_pos.
  case_decide as H90.
  { rewrite bool_decide_true by done. left. split; [done|]. record_appended. }
  rewrite (bool_decide_false _ H90).
  case_decide as H75.
  { rewrite bool_decide_true by done. right; left. split; [done|].
    record_appended. }
  rewrite (bool_decide_false _ H75). by right; right.
Qed.

Lemma check_trauma_rule s st :
  let after := check_trauma (count_available (ed_trauma_bays s)) st in
  (trauma_rule s = Some ("TRAUMA_BAY_SHORTAGE", "HIGH") ∧
   ∃ c, conflict_key c = ("TRAUMA_BAY_SHORTAGE", "HIGH") ∧
        after = (st.1 ++ [c],
                 if decide (st.2 ∉ ["CRITICAL"; "HIGH"]) then "HIGH"
                 else st.2)) ∨
  (trauma_rule s = None ∧ after = st).
Proof.
  intros after. subst after. destruct st as [cs sev].
  unfold trauma_rule, check_trauma.
  destruct (Z.eqb_spec (count_available (ed_trauma_bays s)) 0).
  - rewrite decide_True by done. left. split; [done|]. record_appended.
  - rewrite decide_False by done. by right.
Qed.

(** The emptiness test of the filtered list reads "some physician has a
    load of 5 or more". *)
Lemma check_physicians_rule s l st :
  dict_get "ed_physicians" (staff_available s) = Some l →
  let after := check_physicians l st in
  (physician_rule s = Some ("PHYSICIAN_OVERLOAD", "MODERATE") ∧
   ∃ c, conflict_key c = ("PHYSICIAN_OVERLOAD", "MODERATE") ∧
        after = (st.1 ++ [c],
                 if decide (st.2 = "NONE") then "MODERATE" else st.2)) ∨
  (physician_rule s = None ∧ after = st).
Proof.
  intros Hl after. subst after. destruct st as [cs sev].
  unfold physician_rule, check_physicians. rewrite Hl. cbn [default].
  case_decide as Hex.
  - left. split; [done|].
    destruct (filter _ l) as [|p ps] eqn:Hf.
    + by apply filter_nil_iff in Hf.
    + record_appended.
  - right. split; [done|].
    by rewrite (proj2 (filter_nil_iff _ l) Hex).
Qed.

Lemma check_ventilators_rule s v st :
  dict_get "ventilators" (equipment s) = Some v → 0 ≤ available v →
  let after := check_ventilators (available v) st in
  (ventilator_rule s = Some ("VENTILATOR_SHORTAGE", "CRITICAL") ∧
   ∃ c, conflict_key c = ("VENTILATOR_SHORTAGE", "CRITICAL") ∧
        after = (st.1 ++ [c], "CRITICAL")) ∨
  (ventilator_rule s = Some ("VENTILATOR_LIMITED", "HIGH") ∧
   ∃ c, conflict_key c = ("VENTILATOR_LIMITED", "HIGH") ∧
        after = (st.1 ++ [c],
                 if decide (st.2 ∉ ["CRITICAL"]) then "HIGH" else st.2)) ∨
  (ventilator_rule s = None ∧ after = st).
Proof.
  intros Hv Hnn after. subst after. destruct st as [cs sev].
  unfold ventilator_rule, check_ventilators. rewrite Hv.
  cbn [fmap option_fmap option_map].
  destruct (decide (available v = 0)) as [->|Hn0].
  { left. split; [done|]. record_appended. }
  rewrite (proj2 (Z.eqb_neq _ 0)) by done.
  destruct (decide (available v = 1)) as [->|Hn1].
  { right; left. split; [done|]. record_appended. }
  rewrite (proj2 (Z.leb_gt _ 1)) by lia.
  right; right. split; [|done].
  destruct (available v) as [|[p|p|]|p]; try done; lia.
Qed.

(** The four checks in sequence leave one record per triggered rule and
    the highest severity among them. *)
Lemma checks_spec s l v :
  icu_beds s ≠ [] →
  dict_get "ed_physicians" (staff_available s) = Some l →
  dict_get "ventilators" (equipment s) = Some v → 0 ≤ available v →
  let occ :=
    (inject_Z (len (icu_beds s) - count_available (icu_beds s))
       / inject_Z (len (icu_beds s)) * 100)%Q in
  let st :=
    check_ventilators (available v)
      (check_physicians l
         (check_trauma (count_available (ed_trauma_bays s))
            (check_icu occ (count_available (icu_beds s)) ([], "NONE")))) in
  conflict_key <$> st.1 = triggered_rules s ∧
  st.2 = max_severity (triggered_rules s).*2.
Proof.
  intros Hicu Hl Hv Hnn occ st. subst st occ. unfold triggered_rules.
  destruct (check_icu_rule s ([], "NONE") Hicu)
    as [(-> & c1 & Hc1 & ->)|[(-> & c1 & Hc1 & ->)|(-> & ->)]];
    cbn [fst snd];
    match goal with
    | |- context [check_trauma _ ?st] =>
        destruct (check_trauma_rule s st)
          as [(-> & c2 & Hc2 & ->)|(-> & ->)]
    end;
    cbn [fst snd];
    match goal with
    | |- context [check_physicians _ ?st] =>
        destruct (check_physicians_rule s l st Hl)
          as [(-> & c3 & Hc3 & ->)|(-> & ->)]
    end;
    cbn [fst snd];
    match goal with
    | |- context [check_ventilators _ ?st] =>
        destruct (check_ventilators_rule s v st Hv Hnn)
          as [(-> & c4 & Hc4 & ->)|[(-> & c4 & Hc4 & ->)|(-> & ->)]]
    end;
    cbn [fst snd];
    (split;
     [ rewrite ?fmap_app, ?fmap_cons, ?fmap_nil, ?Hc1, ?Hc2, ?Hc3, ?Hc4;
       reflexivity
     | vm_compute; reflexivity ]).
Qed.
End Detect.

Lemma detect_resource_conflicts_spec now s :
  inventory_ok s →
  ∃ r, detect_resource_conflicts now s = Ok r ∧
       conflict_key <$> conflicts r = triggered_rules s ∧
       cr_severity r = max_severity (triggered_rules s).*2 ∧
       conflict_count r = len (triggered_rules s) ∧
       (conflicts_detected r = true ↔ triggered_rules s ≠ []) ∧
       (requires_intervention r = true ↔
        cr_severity r = "HIGH" ∨ cr_severity r = "CRITICAL").
Proof.
  intros [Hicu (l & Hl & _ & _) _ _ _ _ (v & Hv & Hnn)].
  destruct (checks_spec s l v Hicu Hl Hv Hnn) as [Hkeys Hsev].
  unfold detect_resource_conflicts, py_div, dict_item.
  rewrite (proj2 (Z.eqb_neq (len (icu_beds s)) 0))
    by (pose proof (len_pos _ Hicu); lia).
  rewrite Hl, Hv. cbn [mbind py_bind mret py_ret].
  destruct (check_ventilators _ _) as [cs sev]. cbn [fst snd] in *.
  eexists. split; [reflexivity|]. cbn [conflict_report conflicts cr_severity
    conflict_count conflicts_detected requires_intervention].
  assert (Hlen : len cs = len (triggered_rules s)).
  { unfold len. by rewrite <- Hkeys, length_fmap. }
  split_and!; [done | done | done | |].
  - rewrite Hlen, Z.ltb_lt. unfold len.
    destruct (triggered_rules s); simpl; [split; [lia|done]|split; [done|lia]].
  - rewrite bool_decide_eq_true, !elem_of_cons, elem_of_nil. tauto.
Qed.



(** ** [get_hospital_state] *)

Section Query.
Implicit Types (s : HospitalState).

Lemma filter_selects_spec query_filter name :
  filter_selects query_filter name = true ↔ selects query_filter name.
Proof.
  unfold filter_selects, selects. destruct query_filter as [f|].
  - rewrite bool_decide_eq_true, !elem_of_cons, elem_of_nil.
    split; [intros [->|[->|[]]]; auto | intros [?|[[= ->]|[= ->]]]; auto].
    done.
  - split; auto.
Qed.

Lemma bed_ids_with_spec statuses beds :
  lists_beds statuses beds (bed_ids_with statuses beds).
Proof.
  intros id. unfold bed_ids_with, dict_keys.
  rewrite list_elem_of_fmap. split.
  - intros ([id' bed] & -> & [Hst Hin]%list_elem_of_filter).
    by exists bed.
  - intros (bed & Hin & Hst). exists (id, bed). split; [done|].
    by apply list_elem_of_filter.
Qed.


Lemma foldl_min_spec x xs :
  foldl Z.min x xs ≤ x ∧ Forall (Z.le (foldl Z.min x xs)) xs ∧
  (foldl Z.min x xs = x ∨ foldl Z.min x xs ∈ xs).
Proof.
  revert x. induction xs as [|y ys IH]; intros x; simpl.
  - split_and!; [lia | constructor | by left].
  - destruct (IH (Z.min x y)) as (Hle & Hall & Hmem).
    split_and!; [lia | constructor; [lia | done] |].
    destruct Hmem as [Heq|Hin].
    + rewrite Heq. destruct (Z.min_spec x y) as [[_ ->]|[_ ->]];
        [by left | right; by left].
    + right. by right.
Qed.

Lemma foldl_max_spec x xs :
  x ≤ foldl Z.max x xs ∧ Forall (Z.ge (foldl Z.max x xs)) xs ∧
  (foldl Z.max x xs = x ∨ foldl Z.max x xs ∈ xs).
Proof.
  revert x. induction xs as [|y ys IH]; intros x; simpl.
  - split_and!; [lia | constructor | by left].
  - destruct (IH (Z.max x y)) as (Hle & Hall & Hmem).
    split_and!; [lia | constructor; [lia | done] |].
    destruct Hmem as [Heq|Hin].
    + rewrite Heq. destruct (Z.max_spec x y) as [[_ ->]|[_ ->]];
        [right; by left | by left].
    + right. by right.
Qed.

Lemma min_default0_spec xs : xs ≠ [] → is_minimum (min_default0 xs) xs.
Proof.
  destruct xs as [|x xs]; [done|]. intros _. unfold is_minimum. simpl.
  destruct (foldl_min_spec x xs) as (Hle & Hall & Hmem).
  split; [|by constructor].
  destruct Hmem as [Heq|Hin]; [rewrite Heq; by left | by right].
Qed.

Lemma max_default0_spec xs : xs ≠ [] → is_maximum (max_default0 xs) xs.
Proof.
  destruct xs as [|x xs]; [done|]. intros _. unfold is_maximum. simpl.
  destruct (foldl_max_spec x xs) as (Hle & Hall & Hmem).
  split; [|constructor; [lia | done]].
  destruct Hmem as [Heq|Hin]; [rewrite Heq; by left | by right].
Qed.

Lemma py_sum_foldr xs : py_sum xs = foldr Z.add 0 xs.
Proof.
  unfold py_sum.
  assert (Hacc : ∀ a, foldl Z.add a xs = a + foldr Z.add 0 xs).
  { induction xs as [|x xs IH]; intros a; simpl; [lia|].
    rewrite IH. lia. }
  rewrite Hacc. lia.
Qed.

Lemma mapM_load_of l :
  Forall (λ p, is_Some (current_load p)) l →
  mapM load_of l = Ok ((λ p, default 0 (current_load p)) <$> l).
Proof.
  induction 1 as [|p l [n Hn] _ IH]; [done|].
  change (mapM load_of (p :: l))
    with (y ← load_of p; k ← mapM load_of l; mret (y :: k)).
  rewrite IH. unfold load_of. rewrite fmap_cons, Hn. reflexivity.
Qed.

Lemma staff_section_ok s :
  inventory_ok s →
  ∃ st l,
    staff_section s = Ok st ∧
    dict_get "ed_physicians" (staff_available s) = Some l ∧
    physicians st = l ∧
    dict_get "ed_nurses" (staff_available s) = Some (nurses st) ∧
    dict_get "cardiologists" (staff_available s)
      = Some (specialist_cardiologists st) ∧
    dict_get "trauma_surgeons" (staff_available s)
      = Some (specialist_trauma_surgeons st) ∧
    workload_ok ((λ p, default 0 (current_load p)) <$> l)
      (physician_workload_summary st).
Proof.
  intros [_ (l & Hl & Hne & Hloads) [nu Hnu] [ca Hca] [ts Hts] _ _].
  unfold staff_section, dict_item. rewrite Hl, Hnu, Hca, Hts.
  cbn [mbind py_bind]. rewrite mapM_load_of by done.
  cbn [mbind py_bind]. unfold py_div.
  rewrite (proj2 (Z.eqb_neq (len l) 0))
    by (pose proof (len_pos _ Hne); lia).
  cbn [mbind py_bind mret py_ret].
  eexists _, l. split; [reflexivity|].
  cbn [physicians nurses specialist_cardiologists
         specialist_trauma_surgeons physician_workload_summary].
  split_and!; try done.
  unfold workload_ok. cbn [least_busy most_busy average_load].
  assert ((λ p, default 0 (current_load p)) <$> l ≠ []) by by destruct l.
  split_and!.
  - by apply min_default0_spec.
  - by apply max_default0_spec.
  - rewrite py_sum_foldr. unfold len. by rewrite length_fmap.
Qed.

Lemma append_assoc (a b c : string) : (a +:+ b) +:+ c = a +:+ b +:+ c.
Proof.
  induction a as [|x a IH]; [done|]. by rewrite !append_cons, IH.
Qed.

Lemma prefix_type_name (ty rest : string) :
  String.prefix (ty +:+ ": ") (ty +:+ ": " +:+ rest) = true.
Proof. apply prefix_spec. exists rest. by rewrite append_assoc. Qed.

Lemma find_shortages_ok items acc :
  Forall (λ kv : string * Pool, 0 < total kv.2) items →
  ∃ sh, find_shortages items acc = Ok (acc ++ sh) ∧
        names_short_pools items sh.
Proof.
  unfold names_short_pools. intros Htotals. revert acc.
  induction Htotals as [|[ty data] items Htot _ IH]; intros acc.
  - exists []. split; [by rewrite app_nil_r | constructor].
  - simpl in Htot. cbn [find_shortages]. unfold py_div.
    rewrite (proj2 (Z.eqb_neq (total data) 0)) by lia.
    cbn [mbind py_bind].
    change (80 : Q) with (inject_Z 80).
    rewrite Qle_bool_percent by done.
    destruct (Z.eqb_spec (available data) 0) as [H0|H0].
    + destruct (IH (acc ++ [ty +:+ ": NONE AVAILABLE"])) as (sh & -> & Hsh).
      eexists (_ :: sh). split; [by rewrite <- app_assoc|].
      rewrite filter_cons_True by by left.
      constructor; [|done]. apply (prefix_type_name ty "NONE AVAILABLE").
    + case_bool_decide as H80.
      * match goal with
        | |- context [find_shortages items (acc ++ [?e])] =>
            destruct (IH (acc ++ [e])) as (sh & -> & Hsh);
            exists (e :: sh)
        end.
        split; [by rewrite <- app_assoc|].
        rewrite filter_cons_True by by right.
        constructor; [|done]. apply prefix_type_name.
      * destruct (IH acc) as (sh & -> & Hsh). exists sh.
        split; [done|].
        rewrite filter_cons_False; [done|].
        unfold is_short. simpl. tauto.
Qed.

End Query.




(** The same call with 'full_state' does return the complete snapshot. *)
Example full_state_filter_is_complete :
  ∃ snap,
    get_hospital_state "2024-10-30T09:00" (Some "full_state") HOSPITAL_STATE
      = Ok snap ∧
    (bs_available ∘ icu <$> beds snap) = Some ["ICU-3"; "ICU-4"] ∧
    (bs_occupied ∘ icu <$> beds snap) = Some ["ICU-1"; "ICU-2"] ∧
    (physician_workload_summary <$> staff snap)
      = Some {| least_busy := 2; most_busy := 3; average_load := 5 # 2 |} ∧
    equipment_shortages snap = Some [].
Proof. eexists. split; [vm_compute; reflexivity|]. by vm_compute. Qed.

(** With the last ventilator taken and six of eight defibrillators gone the
    shortage list names both pools. *)
Example shortages_after_reservations :
  let s1 := (reserve_equipment "ventilators" "Maria" 2 HOSPITAL_STATE).2 in
  let s2 := (reserve_equipment "defibrillators" "John" 5 s1).2 in
  (equipment_shortages <$>
     match get_hospital_state "t" (Some "equipment_only") s2 with
     | Ok snap => Some snap
     | Raise _ => None
     end)
  = Some (Some [ "ventilators: NONE AVAILABLE";
                 "defibrillators: 1/8 available (88% utilized)" ]).
Proof. by vm_compute. Qed.

(** * Further properties of the tools *)

(** ** The scorer *)

Lemma Qltb_lt (a b : Q) : Qltb a b = true ↔ (a < b)%Q.
Proof.
  unfold Qltb. rewrite negb_true_iff, <- not_true_iff_false, Qle_bool_iff.
  split; [apply Qnot_le_lt | apply Qlt_not_le].
Qed.

Lemma Qltb_ge (a b : Q) : Qltb a b = false ↔ (b <= a)%Q.
Proof. unfold Qltb. by rewrite negb_false_iff, Qle_bool_iff. Qed.

(** Decides every [Qltb] test in sight and leaves the facts to [lra]. *)
Ltac case_Qltb :=
  repeat match goal with
         | |- context [Qltb ?a ?b] =>
             let H := fresh "Hcmp" in
             destruct (Qltb a b) eqn:H;
             [apply Qltb_lt in H | apply Qltb_ge in H]
         end.

Lemma scan_keywords_elem table sl pts :
  scan_keywords table sl = Some pts → pts ∈ table.*2.
Proof.
  induction table as [|[kw p] table IH]; simpl; [done|].
  destruct (contains kw sl).
  - intros [= <-]. by left.
  - intros ?%IH. by right.
Qed.

Lemma symptom_points_range symptom : 0 ≤ symptom_points symptom ≤ 4.
Proof.
  unfold symptom_points.
  destruct (scan_keywords _ _) as [pts|] eqn:Hscan; simpl; [|lia].
  apply scan_keywords_elem in Hscan. simpl in Hscan.
  repeat (apply elem_of_cons in Hscan as [->|Hscan]; [lia|]).
  by apply elem_of_nil in Hscan.
Qed.

Lemma symptom_points_sum_range symptoms :
  0 ≤ foldr Z.add 0 (symptom_points <$> symptoms) ≤ 4 * len symptoms.
Proof.
  unfold len. induction symptoms as [|x symptoms IH]; [simpl; lia|].
  rewrite fmap_cons. cbn [foldr length].
  pose proof (symptom_points_range x). lia.
Qed.

Lemma heart_rate_points_range hr : 0 ≤ heart_rate_points hr ≤ 3.
Proof. unfold heart_rate_points. repeat case_match; lia. Qed.

Lemma blood_pressure_points_range bp : 0 ≤ blood_pressure_points bp ≤ 4.
Proof. unfold blood_pressure_points. repeat case_match; lia. Qed.

Lemma oxygen_points_range o2 : 0 ≤ oxygen_points o2 ≤ 5.
Proof. unfold oxygen_points. repeat case_match; lia. Qed.

Lemma age_points_range age : 0 ≤ age_points age ≤ 3.
Proof. unfold age_points, score_age. repeat case_match; simpl; lia. Qed.

Section ScorerMore.
Variable str_num : Q → string.

Lemma score_age_fst age st : (score_age age st).1 = st.1 + age_points age.
Proof.
  destruct st as [sc rf]. unfold age_points, score_age.
  repeat case_match; simpl; lia.
Qed.

Lemma score_heart_rate_fst hr st :
  (score_heart_rate str_num hr st).1 = st.1 + heart_rate_points hr.
Proof.
  destruct st as [sc rf]. unfold heart_rate_points, score_heart_rate.
  repeat case_match; simpl; lia.
Qed.

Lemma score_blood_pressure_fst bp st :
  (score_blood_pressure str_num bp st).1 = st.1 + blood_pressure_points bp.
Proof.
  destruct st as [sc rf]. unfold blood_pressure_points, score_blood_pressure.
  repeat case_match; simpl; lia.
Qed.

Lemma score_oxygen_fst o2 st :
  (score_oxygen str_num o2 st).1 = st.1 + oxygen_points o2.
Proof.
  destruct st as [sc rf]. unfold oxygen_points, score_oxygen.
  repeat case_match; simpl; lia.
Qed.

(** The score is the sum of five independent contributions. *)
Lemma clinical_score_sum now age vs symptoms :
  clinical_score (calculate_clinical_score str_num now age vs symptoms)
  = age_points age
    + heart_rate_points (default (80 : Q) (vs !! "heart_rate"))
    + blood_pressure_points (default (120 : Q) (vs !! "bp_systolic"))
    + oxygen_points (default (98 : Q) (vs !! "oxygen_saturation"))
    + foldr Z.add 0 (symptom_points <$> symptoms).
Proof.
  rewrite score_unfold. cbn [clinical_score].
  rewrite score_symptoms_fst, score_oxygen_fst, score_blood_pressure_fst,
    score_heart_rate_fst, score_age_fst. simpl. lia.
Qed.

(** X1: the score is never negative and never exceeds 15 plus 4 per
    symptom: at most 3 for age, 3 for heart rate, 4 for blood pressure, 5
    for oxygen saturation and 4 for each symptom.  Nothing clamps it to the
    0-20 scale of the docstring. *)
Theorem clinical_score_bounds now age vs symptoms :
  0 ≤ clinical_score (calculate_clinical_score str_num now age vs symptoms)
    ≤ 15 + 4 * len symptoms.
Proof.
  rewrite clinical_score_sum.
  pose proof (age_points_range age).
  pose proof (heart_rate_points_range (default (80 : Q) (vs !! "heart_rate"))).
  pose proof (blood_pressure_points_range
                (default (120 : Q) (vs !! "bp_systolic"))).
  pose proof (oxygen_points_range
                (default (98 : Q) (vs !! "oxygen_saturation"))).
  pose proof (symptom_points_sum_range symptoms). lia.
Qed.
End ScorerMore.

(** The bound is reached, and it is above 20 from two symptoms on. *)
Example clinical_score_above_twenty :
  clinical_score
    (calculate_clinical_score str_floor "t" 80
       (<["heart_rate" := (140 : Q)]>
          (<["bp_systolic" := (80 : Q)]>
             {[ "oxygen_saturation" := (85 : Q) ]}))
       ["unresponsive"; "stroke"]) = 23.
Proof. reflexivity. Qed.

Lemma scan_keywords_points sl pts :
  scan_keywords critical_keywords sl = Some pts → 2 ≤ pts ≤ 4.
Proof.
  intros Hscan%scan_keywords_elem. simpl in Hscan.
  repeat (apply elem_of_cons in Hscan as [->|Hscan]; [lia|]).
  by apply elem_of_nil in Hscan.
Qed.

Lemma classify_antitone (a b : Z) :
  a ≤ b →
  (classify b).2 ≤ (classify a).2 ∧
  (severity_rank (classify a).1 ≤ severity_rank (classify b).1)%nat.
Proof.
  intros Hab. unfold classify.
  repeat match goal with
         | |- context [?x <=? ?y] => destruct (Z.leb_spec x y)
         end; try lia; (split; [simpl; lia | vm_compute; lia]).
Qed.

Lemma classify_range (a : Z) : 40 ≤ (classify a).2 ≤ 95.
Proof.
  unfold classify.
  repeat match goal with
         | |- context [?x <=? ?y] => destruct (Z.leb_spec x y)
         end; simpl; lia.
Qed.

Lemma oxygen_points_antitone (a b : Q) :
  (a <= b)%Q → oxygen_points b ≤ oxygen_points a.
Proof.
  intros Hab. unfold oxygen_points. case_Qltb; try lia; lra.
Qed.

Lemma symptom_points_sum_perm (l1 l2 : list string) :
  l1 ≡ₚ l2 →
  foldr Z.add 0 (symptom_points <$> l1) = foldr Z.add 0 (symptom_points <$> l2).
Proof.
  induction 1 as [|x l1 l2 _ IH|x y l|l1 l2 l3 _ IH1 _ IH2];
    rewrite ?fmap_cons; cbn [foldr]; lia.
Qed.

Section ScorerInvariants.
Variable str_num : Q → string.

Lemma points_match_factors_steps age hr bp o2 symptoms st :
  points_match_factors st →
  points_match_factors
    (score_symptoms symptoms
       (score_oxygen str_num o2
          (score_blood_pressure str_num bp
             (score_heart_rate str_num hr (score_age age st))))).
Proof.
  assert (Hstep : ∀ sc rf p (x : string),
    1 ≤ p ≤ 5 → points_match_factors (sc, rf) →
    points_match_factors (sc + p, rf ++ [x])).
  { unfold points_match_factors, len. intros sc rf p x Hp. simpl.
    rewrite length_app. simpl. lia. }
  intros Hst.
  assert (Hage : points_match_factors (score_age age st)).
  { destruct st as [sc rf]. unfold score_age.
    repeat case_match; try done; by apply Hstep. }
  assert (Hhr : points_match_factors
                  (score_heart_rate str_num hr (score_age age st))).
  { destruct (score_age age st) as [sc rf]. unfold score_heart_rate.
    repeat case_match; try done; by apply Hstep. }
  assert (Hbp : points_match_factors
                  (score_blood_pressure str_num bp
                     (score_heart_rate str_num hr (score_age age st)))).
  { destruct (score_heart_rate _ _ _) as [sc rf].
    unfold score_blood_pressure.
    repeat case_match; try done; by apply Hstep. }
  assert (Ho2 : points_match_factors
                  (score_oxygen str_num o2
                     (score_blood_pressure str_num bp
                        (score_heart_rate str_num hr (score_age age st))))).
  { destruct (score_blood_pressure _ _ _) as [sc rf]. unfold score_oxygen.
    repeat case_match; try done; by apply Hstep. }
  revert Ho2. generalize (score_oxygen str_num o2
    (score_blood_pressure str_num bp
       (score_heart_rate str_num hr (score_age age st)))).
  unfold score_symptoms. induction symptoms as [|x symptoms IH]; [done|].
  intros [sc rf] Hinv. cbn [fold_left]. apply IH.
  unfold score_symptom.
  destruct (scan_keywords _ _) as [pts|] eqn:Hscan; [|done].
  apply Hstep; [|done]. apply scan_keywords_points in Hscan. lia.
Qed.

(** X2: the risk factors account for the score: every risk factor stands
    for 1 to 5 points, so the score lies between the number of risk factors
    and five times that number, and the score is 0 exactly when no risk
    factor is reported. *)
Theorem score_matches_risk_factors now age vs symptoms :
  let r := calculate_clinical_score str_num now age vs symptoms in
  len (risk_factors r) ≤ clinical_score r ≤ 5 * len (risk_factors r) ∧
  (clinical_score r = 0 ↔ risk_factors r = []).
Proof.
  intros r. subst r. rewrite score_unfold.
  cbn [clinical_score risk_factors].
  pose proof (points_match_factors_steps age
                (default (80 : Q) (vs !! "heart_rate"))
                (default (120 : Q) (vs !! "bp_systolic"))
                (default (98 : Q) (vs !! "oxygen_saturation"))
                symptoms (0, [])) as Hinv.
  destruct (score_symptoms _ _) as [sc rf]. cbn [fst snd] in *.
  unfold points_match_factors, len in Hinv. simpl in Hinv.
  specialize (Hinv ltac:(lia)). unfold len. split; [lia|].
  destruct rf; simpl in *; split; intros; try done; lia.
Qed.

(** X3: the survival probability lies between 40 and 95, and a higher
    score never gets a higher survival probability nor a lower severity
    tier, across all four bands. *)
Theorem survival_falls_as_score_rises now1 age1 vs1 symptoms1
    now2 age2 vs2 symptoms2 :
  let r1 := calculate_clinical_score str_num now1 age1 vs1 symptoms1 in
  let r2 := calculate_clinical_score str_num now2 age2 vs2 symptoms2 in
  40 ≤ survival_probability r1 ≤ 95 ∧
  (clinical_score r1 ≤ clinical_score r2 →
   survival_probability r2 ≤ survival_probability r1 ∧
   (severity_rank (severity r1) ≤ severity_rank (severity r2))%nat).
Proof.
  intros r1 r2. subst r1 r2. rewrite !score_unfold.
  cbn [clinical_score severity survival_probability].
  split; [apply classify_range | apply classify_antitone].
Qed.

(** X4: for fixed age, other vitals and symptoms, a lower oxygen
    saturation never gives a lower score. *)
Theorem lower_oxygen_never_lowers_score now age vs symptoms (a b : Q) :
  (a <= b)%Q →
  clinical_score
    (calculate_clinical_score str_num now age
       (<["oxygen_saturation" := b]> vs) symptoms)
  ≤ clinical_score
      (calculate_clinical_score str_num now age
         (<["oxygen_saturation" := a]> vs) symptoms).
Proof.
  intros Hab. rewrite !clinical_score_sum.
  rewrite !lookup_insert_eq, !lookup_insert_ne by done. cbn [default id].
  pose proof (oxygen_points_antitone a b Hab). lia.
Qed.

(** X5: the score, the severity and the survival probability do not
    depend on the order of the symptom list. *)
Theorem symptom_order_irrelevant now age vs symptoms symptoms' :
  symptoms ≡ₚ symptoms' →
  let r := calculate_clinical_score str_num now age vs symptoms in
  let r' := calculate_clinical_score str_num now age vs symptoms' in
  clinical_score r = clinical_score r' ∧
  severity r = severity r' ∧
  survival_probability r = survival_probability r'.
Proof.
  intros Hperm r r'.
  assert (Hscore : clinical_score r = clinical_score r').
  { subst r r'. rewrite !clinical_score_sum.
    by rewrite (symptom_points_sum_perm _ _ Hperm). }
  split; [done|]. revert Hscore. subst r r'. rewrite !score_unfold.
  cbn [clinical_score severity survival_probability]. by intros ->.
Qed.

(** X6: a key of the vital_signs mapping other than heart_rate, bp_systolic
    and oxygen_saturation is never read: adding or changing it leaves the
    whole assessment as it was. *)
Theorem other_vital_keys_ignored now age vs symptoms (key : string) (v : Q) :
  key ∉ ["heart_rate"; "bp_systolic"; "oxygen_saturation"] →
  calculate_clinical_score str_num now age (<[key := v]> vs) symptoms
  = calculate_clinical_score str_num now age vs symptoms.
Proof.
  intros Hkey. rewrite !score_unfold.
  rewrite !lookup_insert_ne; [done|..];
    intros ->; apply Hkey; set_solver.
Qed.
End ScorerInvariants.

Lemma survival_falls_as_score_rises_witness :
  survival_probability
    (calculate_clinical_score str_floor "t2" 80
       {[ "oxygen_saturation" := (85 : Q) ]} ["unresponsive"])
  ≤ survival_probability
      (calculate_clinical_score str_floor "t1" 30 ∅ ["chest pain"]).
Proof.
  destruct (survival_falls_as_score_rises str_floor
              "t1" 30 ∅ ["chest pain"]
              "t2" 80 {[ "oxygen_saturation" := (85 : Q) ]} ["unresponsive"])
    as (_ & Hmono).
  apply Hmono. vm_compute. discriminate.
Defined.

Lemma lower_oxygen_never_lowers_score_witness :
  clinical_score
    (calculate_clinical_score str_floor "t" 30
       {[ "oxygen_saturation" := (96 : Q) ]} [])
  ≤ clinical_score
      (calculate_clinical_score str_floor "t" 30
         {[ "oxygen_saturation" := (90 : Q) ]} []).
Proof.
  apply (lower_oxygen_never_lowers_score str_floor "t" 30 ∅ [] 90 96).
  vm_compute. discriminate.
Defined.

Lemma symptom_order_irrelevant_witness :
  clinical_score
    (calculate_clinical_score str_floor "t" 30 ∅ ["stroke"; "cough"])
  = clinical_score
      (calculate_clinical_score str_floor "t" 30 ∅ ["cough"; "stroke"]).
Proof.
  apply (symptom_order_irrelevant str_floor "t" 30 ∅
           ["stroke"; "cough"] ["cough"; "stroke"]).
  apply perm_swap.
Defined.

Lemma other_vital_keys_ignored_witness :
  calculate_clinical_score str_floor "t" 30
    {[ "temperature" := (39 : Q) ]} ["cough"]
  = calculate_clinical_score str_floor "t" 30 ∅ ["cough"].
Proof.
  apply (other_vital_keys_ignored str_floor "t" 30 ∅ ["cough"]
           "temperature" 39).
  intros Hin. repeat (apply elem_of_cons in Hin as [Hin|Hin];
                      [discriminate Hin|]).
  by apply elem_of_nil in Hin.
Defined.

(** ** Equipment pools *)

(** Assigning to a key that is present keeps the keys and their order. *)
Lemma dict_set_keys {V} (k : string) (v : V) (d : dict V) :
  is_Some (dict_get k d) → dict_keys (dict_set k v d) = dict_keys d.
Proof.
  unfold dict_keys. induction d as [|[k0 v0] d IH]; simpl.
  - by intros [? ?].
  - case_decide as Hk.
    + subst. intros _. by rewrite !fmap_cons.
    + intros Hd. rewrite !fmap_cons. simpl. f_equal. by apply IH.
Qed.

(** A granted request changes one field of one pool and nothing else. *)
Lemma reserve_equipment_granted ty p q s pool :
  dict_get ty (equipment s) = Some pool → ¬ available pool < q →
  let r := (reserve_equipment ty p q s).1 in
  let s' := (reserve_equipment ty p q s).2 in
  re_success r = true ∧ re_quantity_reserved r = Some q ∧
  re_remaining_available r = Some (available pool - q) ∧
  equipment s'
    = dict_set ty {| available := available pool - q; total := total pool |}
        (equipment s) ∧
  icu_beds s' = icu_beds s ∧ ed_trauma_bays s' = ed_trauma_bays s ∧
  ed_treatment_rooms s' = ed_treatment_rooms s ∧
  staff_available s' = staff_available s.
Proof.
  intros Hget Hge. unfold reserve_equipment. rewrite Hget.
  destruct (Z.ltb_spec (available pool) q); [lia|]. by cbn.
Qed.

(** X7: what a reserve_equipment call does, for every integer quantity:
    an unknown type is refused; a quantity above the available count is
    refused, reporting the request and the count; any other quantity is
    granted and taken off that pool's available count exactly.  A refusal
    returns the state it was given; a grant changes nothing but that one
    count: the pool's total, the other pools, the beds, the treatment rooms
    and the staff stay as they were. *)
Theorem reserve_equipment_outcome equipment_type patient_name quantity s :
  let r := (reserve_equipment equipment_type patient_name quantity s).1 in
  let s' := (reserve_equipment equipment_type patient_name quantity s).2 in
  match dict_get equipment_type (equipment s) with
  | None => re_success r = false ∧ s' = s
  | Some pool =>
      if decide (available pool < quantity) then
        re_success r = false ∧ re_requested r = Some quantity ∧
        re_available r = Some (available pool) ∧ s' = s
      else
        re_success r = true ∧ re_quantity_reserved r = Some quantity ∧
        re_remaining_available r = Some (available pool - quantity) ∧
        dict_get equipment_type (equipment s')
          = Some {| available := available pool - quantity;
                    total := total pool |} ∧
        (∀ other, other ≠ equipment_type →
           dict_get other (equipment s') = dict_get other (equipment s)) ∧
        dict_keys (equipment s') = dict_keys (equipment s) ∧
        icu_beds s' = icu_beds s ∧ ed_trauma_bays s' = ed_trauma_bays s ∧
        ed_treatment_rooms s' = ed_treatment_rooms s ∧
        staff_available s' = staff_available s
  end.
Proof.
  intros r s'. subst r s'.
  destruct (dict_get equipment_type (equipment s)) as [pool|] eqn:Hget.
  - case_decide as Hlt.
    + destruct (reserve_equipment_insufficient equipment_type patient_name
                  quantity s pool Hget Hlt) as (? & ? & ? & ?). done.
    + destruct (reserve_equipment_granted equipment_type patient_name
                  quantity s pool Hget Hlt)
        as (? & ? & ? & Heq & ? & ? & ? & ?).
      rewrite Heq. split_and!; try done.
      * apply dict_get_set_eq.
      * intros other Hne. by apply dict_get_set_ne.
      * apply dict_set_keys. by rewrite Hget.
  - by apply reserve_equipment_unknown.
Qed.

(** X8: when every requested quantity is non-negative, a pool that starts
    within [0, total] stays within it over any sequence of reservations,
    and its total never changes. *)
Theorem nonnegative_reservations_keep_bounds equipment_type calls s pool :
  Forall (λ c : string * Z, 0 ≤ c.2) calls →
  dict_get equipment_type (equipment s) = Some pool →
  pool_in_bounds pool →
  ∃ pool',
    dict_get equipment_type
      (equipment (reserve_equipments equipment_type calls s)) = Some pool' ∧
    total pool' = total pool ∧ pool_in_bounds pool' ∧
    available pool' ≤ available pool.
Proof.
  intros Hcalls. revert s pool.
  induction Hcalls as [|[p q] calls Hq _ IH]; intros s pool Hget Hb.
  - exists pool. split_and!; [done..|lia].
  - cbn [reserve_equipments]. simpl in Hq.
    destruct (Z.lt_ge_cases (available pool) q) as [Hlt|Hge].
    + destruct (reserve_equipment_insufficient equipment_type p q s pool)
        as (_ & _ & _ & ->); [done..|]. by apply IH.
    + destruct (reserve_equipment_success equipment_type p q s pool)
        as (_ & _ & Hget' & _); [done..|].
      destruct (IH _ _ Hget') as (pool' & ? & ? & ? & ?).
      { unfold pool_in_bounds in *. simpl. lia. }
      exists pool'. simpl in *. split_and!; [done..|lia].
Qed.

(** What check_equipment reads off the pool: the two counts, with 0 for
    a type that is not in the inventory. *)
Lemma check_equipment_reads equipment_type s :
  ∃ r, check_equipment equipment_type s = Ok r ∧
       es_available r
       = default 0 (available <$> dict_get equipment_type (equipment s)) ∧
       es_total r
       = default 0 (total <$> dict_get equipment_type (equipment s)) ∧
       in_use r = es_total r - es_available r ∧
       es_status r
       = if 0 <? es_available r then "available" else "all_in_use".
Proof.
  unfold check_equipment. cbv zeta.
  destruct (Z.ltb_spec 0
              (default 0 (total <$> dict_get equipment_type (equipment s))))
    as [Hpos|Hnpos]; cbn [mbind py_bind mret py_ret].
  - unfold py_div. rewrite (proj2 (Z.eqb_neq _ 0)) by lia.
    cbn [mbind py_bind mret py_ret]. by eexists.
  - by eexists.
Qed.

(** X9: check_equipment and reserve_equipment agree: the reported status
    is 'available' exactly when a request for one unit would be granted;
    for an unknown type the status is 'all_in_use' and the request is
    refused. *)
Theorem status_available_iff_one_unit_granted equipment_type patient_name s :
  ∃ r, check_equipment equipment_type s = Ok r ∧
       (es_status r = "available" ↔
        re_success (reserve_equipment equipment_type patient_name 1 s).1
          = true).
Proof.
  destruct (check_equipment_reads equipment_type s)
    as (r & Hr & Hav & _ & _ & Hst).
  exists r. split; [done|]. rewrite Hst, Hav.
  unfold reserve_equipment.
  destruct (dict_get equipment_type (equipment s)) as [pool|]; cbn.
  - destruct (Z.ltb_spec 0 (available pool)),
      (Z.ltb_spec (available pool) 1); simpl; try lia; done.
  - done.
Qed.

(** X10: after a granted reservation of [quantity] units check_equipment
    reports exactly [quantity] fewer available and [quantity] more in use,
    with the same total. *)
Theorem check_equipment_after_reservation
    equipment_type patient_name quantity s before :
  check_equipment equipment_type s = Ok before →
  re_success (reserve_equipment equipment_type patient_name quantity s).1
    = true →
  ∃ after,
    check_equipment equipment_type
      (reserve_equipment equipment_type patient_name quantity s).2
      = Ok after ∧
    es_available after = es_available before - quantity ∧
    in_use after = in_use before + quantity ∧
    es_total after = es_total before.
Proof.
  intros Hbefore Hsucc.
  destruct (check_equipment_reads equipment_type
              (reserve_equipment equipment_type patient_name quantity s).2)
    as (after & Hafter & Hav' & Htot' & Huse' & _).
  destruct (check_equipment_reads equipment_type s)
    as (before' & Hb & Hav & Htot & Huse & _).
  assert (before' = before) as -> by congruence.
  exists after. split; [done|].
  destruct (dict_get equipment_type (equipment s)) as [pool|] eqn:Hget.
  - destruct (decide (available pool < quantity)) as [Hlt|Hge].
    + destruct (reserve_equipment_insufficient equipment_type patient_name
                  quantity s pool Hget Hlt) as (Hf & _). congruence.
    + destruct (reserve_equipment_granted equipment_type patient_name
                  quantity s pool Hget Hge) as (_ & _ & _ & Heq & _).
      rewrite Heq, dict_get_set_eq in Hav', Htot'. simpl in *. lia.
  - destruct (reserve_equipment_unknown equipment_type patient_name
                quantity s Hget) as (Hf & _). congruence.
Qed.

Lemma nonnegative_reservations_keep_bounds_witness :
  ∃ pool',
    dict_get "ventilators"
      (equipment (reserve_equipments "ventilators"
                    [("Maria", 1); ("John", 3); ("Ana", 1)] HOSPITAL_STATE))
      = Some pool' ∧
    pool_in_bounds pool'.
Proof.
  destruct (nonnegative_reservations_keep_bounds "ventilators"
              [("Maria", 1); ("John", 3); ("Ana", 1)] HOSPITAL_STATE
              {| available := 2; total := 7 |})
    as (pool' & Hget & _ & Hb & _).
  - repeat constructor; simpl; lia.
  - reflexivity.
  - unfold pool_in_bounds. simpl. lia.
  - by exists pool'.
Defined.

Lemma check_equipment_after_reservation_witness :
  ∃ after,
    check_equipment "defibrillators"
      (reserve_equipment "defibrillators" "Maria" 2 HOSPITAL_STATE).2
      = Ok after ∧
    es_available after = 4 ∧ in_use after = 4.
Proof.
  destruct (check_equipment_after_reservation "defibrillators" "Maria" 2
              HOSPITAL_STATE
              {| es_equipment_type := "defibrillators"; es_available := 6;
                 es_total := 8; in_use := 2; utilization_rate := 200 # 8;
                 es_status := "available" |})
    as (after & Hafter & Hav & Huse & _).
  - reflexivity.
  - reflexivity.
  - exists after. split; [exact Hafter|]. split; [exact Hav | exact Huse].
Defined.

(** ** What no tool call changes *)

Section Shape.
Implicit Types (s : HospitalState).

Lemma dict_set_fmap_same {V B} (f : string * V → B) k (v v0 : V) (d : dict V) :
  dict_get k d = Some v0 → f (k, v) = f (k, v0) →
  f <$> dict_set k v d = f <$> d.
Proof.
  intros Hget Hf. induction d as [|[k0 v1] d IH]; simpl in *; [done|].
  case_decide as Hk.
  - injection Hget as ->. subst k0. by rewrite !fmap_cons, Hf.
  - rewrite !fmap_cons. f_equal. by apply IH.
Qed.

Lemma update_staff_names key n l m' l' :
  update_staff key n l = Some (m', l') → name <$> l' = name <$> l.
Proof.
  revert m' l'. induction l as [|m l IH]; intros m' l'; simpl; [done|].
  case_decide.
  - intros [= <- <-]. rewrite !fmap_cons. f_equal.
    unfold update_workload. by repeat case_decide.
  - destruct (update_staff key n l) as [[m1 l1]|]; simpl; [|done].
    intros [= <- <-]. rewrite !fmap_cons. f_equal. by eapply IH.
Qed.

Lemma reserve_bed_shape now bed_id p prio s :
  dict_keys (icu_beds (reserve_bed now bed_id p prio s).2)
    = dict_keys (icu_beds s) ∧
  dict_keys (ed_trauma_bays (reserve_bed now bed_id p prio s).2)
    = dict_keys (ed_trauma_bays s) ∧
  (Forall (λ kv : string * Bed, known_status (status kv.2)) (icu_beds s) →
   Forall (λ kv : string * Bed, known_status (status kv.2))
     (icu_beds (reserve_bed now bed_id p prio s).2)) ∧
  (Forall (λ kv : string * Bed, known_status (status kv.2))
     (ed_trauma_bays s) →
   Forall (λ kv : string * Bed, known_status (status kv.2))
     (ed_trauma_bays (reserve_bed now bed_id p prio s).2)) ∧
  ed_treatment_rooms (reserve_bed now bed_id p prio s).2
    = ed_treatment_rooms s.
Proof.
  assert (Hres : known_status "reserved").
  { unfold known_status. set_solver. }
  unfold reserve_bed.
  destruct (dict_get bed_id (icu_beds s)) as [b|] eqn:Hicu;
    [|destruct (dict_get bed_id (ed_trauma_bays s)) as [b|] eqn:Htb];
    repeat case_decide; cbn [fst snd]; try done;
    cbn [set_icu_beds set_ed_trauma_bays icu_beds ed_trauma_bays
           ed_treatment_rooms];
    (split_and!; try done;
     [ apply dict_set_keys; by eexists
     | intros Hall; by apply dict_set_Forall ]).
Qed.

(** No tool adds, removes or renames a resource. *)
Lemma reachable_shape_ok s : reachable s → shape_ok s.
Proof.
  induction 1 as [|now bed_id p prio s _ IH|ty p q s _ IH|n spec p s _ IH].
  - split; try done;
      repeat constructor; unfold known_status; simpl; set_solver.
  - destruct IH.
    destruct (reserve_bed_shape now bed_id p prio s)
      as (Hk1 & Hk2 & Hs1 & Hs2 & Hr).
    destruct (reserve_bed_frame now bed_id p prio s) as (Hst & Heq & _).
    split; rewrite ?Hk1, ?Hk2, ?Hr, ?Hst, ?Heq; auto.
  - destruct IH.
    destruct (dict_get ty (equipment s)) as [pool|] eqn:Hget.
    + destruct (decide (available pool < q)) as [Hlt|Hge].
      * destruct (reserve_equipment_insufficient ty p q s pool Hget Hlt)
          as (_ & _ & _ & ->). by split.
      * destruct (reserve_equipment_granted ty p q s pool Hget Hge)
          as (_ & _ & _ & Heq & Hi & Ht & Hr & Hst).
        split; rewrite ?Hi, ?Ht, ?Hr, ?Hst; auto.
        rewrite <- shape_equipment0, Heq.
        by apply dict_set_fmap_same with pool.
    + destruct (reserve_equipment_unknown ty p q s Hget) as (_ & ->).
      by split.
  - destruct IH.
    destruct (assign_staff_frame n spec p s) as (Hicu & Heq).
    assert (Hrest : ed_trauma_bays (assign_staff n spec p s).2
                    = ed_trauma_bays s ∧
                    ed_treatment_rooms (assign_staff n spec p s).2
                    = ed_treatment_rooms s).
    { unfold assign_staff. by repeat (case_match; simpl). }
    destruct Hrest as [Htb Hr].
    split; rewrite ?Hicu, ?Heq, ?Htb, ?Hr; auto.
    rewrite <- shape_staff0.
    destruct (assign_staff_staff n spec p s)
      as [-> | (key & m' & l' & Hupd & ->)]; [done|].
    destruct (dict_get key (staff_available s)) as [l|] eqn:Hl;
      simpl in Hupd; [|done].
    apply dict_set_fmap_same with l; [done|]. simpl.
    by rewrite (update_staff_names _ _ _ _ _ Hupd).
Qed.

(** X11: in every state the global can take, the bed ids, the staff names
    under each specialty, the equipment types with their totals and the
    treatment-room counts are those of the initial inventory, and every bed
    status is 'available', 'occupied' or 'reserved': no tool adds, removes
    or renames a resource, and none touches the treatment rooms. *)
Theorem inventory_shape_never_changes s : reachable s → shape_ok s.
Proof. apply reachable_shape_ok. Qed.
End Shape.

(** ** Bed availability *)

Section BedQueries.
Implicit Types (s : HospitalState) (beds : dict Bed).

Lemma dict_get_None {V} (k : string) (d : dict V) :
  dict_get k d = None ↔ k ∉ dict_keys d.
Proof.
  unfold dict_keys. induction d as [|[k0 v0] d IH].
  - split; [intros _ ?%elem_of_nil; done | done].
  - rewrite fmap_cons, not_elem_of_cons. simpl. case_decide.
    + split; [done | intros [? _]; congruence].
    + rewrite IH. split; [by intros ? | by intros [_ ?]].
Qed.

Lemma dict_get_elem {V} (k : string) (v : V) (d : dict V) :
  NoDup (dict_keys d) → (k, v) ∈ d ↔ dict_get k d = Some v.
Proof.
  unfold dict_keys. induction d as [|[k0 v0] d IH].
  - intros _. split; [by intros ?%elem_of_nil | done].
  - rewrite fmap_cons. simpl. intros [Hk0 Hnd]%NoDup_cons.
    rewrite elem_of_cons. case_decide as Hk.
    + subst k0. split.
      * intros [[= ->]|Hin]; [done|]. exfalso. apply Hk0.
        apply list_elem_of_fmap. by exists (k, v).
      * intros [= ->]. by left.
    + rewrite IH by done. split; [intros [[= ? ?]|?]; by subst | by right].
Qed.

Lemma bed_listed_iff statuses beds bed_id :
  NoDup (dict_keys beds) →
  bed_id ∈ bed_ids_with statuses beds ↔
  ∃ bed, dict_get bed_id beds = Some bed ∧ status bed ∈ statuses.
Proof.
  intros Hnd. rewrite (bed_ids_with_spec statuses beds bed_id).
  by setoid_rewrite (dict_get_elem bed_id _ beds Hnd).
Qed.

(** What the key sets of a state of the right shape give. *)
Lemma shape_ok_ids s :
  shape_ok s →
  NoDup (dict_keys (icu_beds s)) ∧ NoDup (dict_keys (ed_trauma_bays s)) ∧
  icu_beds s ≠ [] ∧
  ∀ bed_id, bed_id ∈ dict_keys (ed_trauma_bays s) →
            bed_id ∉ dict_keys (icu_beds s).
Proof.
  intros [Hicu Htb _ _ _ _ _]. rewrite Hicu, Htb. split_and!.
  - apply (bool_decide_unpack _). by vm_compute.
  - apply (bool_decide_unpack _). by vm_compute.
  - intros Hnil. rewrite Hnil in Hicu. discriminate Hicu.
  - intros bed_id Hin Hin'. simpl in Hin, Hin'.
    repeat (apply elem_of_cons in Hin as [->|Hin];
            [repeat (apply elem_of_cons in Hin' as [Hin'|Hin'];
                     [discriminate Hin'|]);
             by apply elem_of_nil in Hin'|]).
    by apply elem_of_nil in Hin.
Qed.

Lemma check_bed_availability_icu s :
  icu_beds s ≠ [] →
  check_bed_availability "ICU" s
  = Ok (Some
          {| ba_department := "ICU";
             ba_available_beds := inl (bed_ids_with ["available"] (icu_beds s));
             ba_reserved_beds :=
               Some (bed_ids_with ["reserved"] (icu_beds s));
             ba_count := len (bed_ids_with ["available"] (icu_beds s));
             ba_total_beds := len (icu_beds s);
             ba_occupancy_rate :=
               Some (inject_Z (len (icu_beds s)
                               - len (bed_ids_with ["available"] (icu_beds s)))
                     / inject_Z (len (icu_beds s)) * 100)%Q;
             ba_estimated_wait_minutes :=
               wait_unless (bed_ids_with ["available"] (icu_beds s)) 45 |}).
Proof.
  intros Hicu. unfold check_bed_availability. rewrite decide_True by done.
  unfold py_div.
  rewrite (proj2 (Z.eqb_neq (len (icu_beds s)) 0))
    by (pose proof (len_pos _ Hicu); lia).
  reflexivity.
Qed.

Lemma check_bed_availability_trauma s :
  check_bed_availability "ED_Trauma" s
  = Ok (Some
          {| ba_department := "ED_Trauma";
             ba_available_beds :=
               inl (bed_ids_with ["available"] (ed_trauma_bays s));
             ba_reserved_beds :=
               Some (bed_ids_with ["reserved"] (ed_trauma_bays s));
             ba_count := len (bed_ids_with ["available"] (ed_trauma_bays s));
             ba_total_beds := len (ed_trauma_bays s);
             ba_occupancy_rate := None;
             ba_estimated_wait_minutes :=
               wait_unless (bed_ids_with ["available"] (ed_trauma_bays s))
                 20 |}).
Proof. reflexivity. Qed.

(** X12: in every state the global can take, the ids that
    check_bed_availability lists as available for 'ICU' and 'ED_Trauma' are
    exactly the ids reserve_bed would grant, and a granted bed is booked in
    the department that listed it. *)
Theorem listed_available_iff_reservable now bed_id patient_name prio s :
  reachable s →
  ∃ icu_report trauma_report icu_ids trauma_ids,
    check_bed_availability "ICU" s = Ok (Some icu_report) ∧
    check_bed_availability "ED_Trauma" s = Ok (Some trauma_report) ∧
    ba_available_beds icu_report = inl icu_ids ∧
    ba_available_beds trauma_report = inl trauma_ids ∧
    (rb_success (reserve_bed now bed_id patient_name prio s).1 = true ↔
     bed_id ∈ icu_ids ∨ bed_id ∈ trauma_ids) ∧
    (bed_id ∈ icu_ids →
     rb_department (reserve_bed now bed_id patient_name prio s).1
       = Some "ICU") ∧
    (bed_id ∈ trauma_ids →
     rb_department (reserve_bed now bed_id patient_name prio s).1
       = Some "ED_Trauma").
Proof.
  intros Hshape%reachable_shape_ok.
  destruct (shape_ok_ids s Hshape) as (Hnd1 & Hnd2 & Hne & Hdisj).
  eexists _, _, _, _.
  split; [by apply check_bed_availability_icu|].
  split; [apply check_bed_availability_trauma|].
  cbn [ba_available_beds]. split; [done|]. split; [done|].
  rewrite !bed_listed_iff by done.
  setoid_rewrite list_elem_of_singleton.
  assert (Htb_icu : ∀ bed, dict_get bed_id (ed_trauma_bays s) = Some bed →
                           dict_get bed_id (icu_beds s) = None).
  { intros bed Hget. apply dict_get_None, Hdisj.
    destruct (dict_get bed_id (ed_trauma_bays s)) eqn:Hg; [|done].
    apply dec_stable. intros Hnot%dict_get_None. congruence. }
  split_and!.
  - rewrite reserve_bed_success_iff. unfold find_bed. split.
    + intros (bed & Hfind & Hst).
      destruct (dict_get bed_id (icu_beds s)) as [b|] eqn:Hicu.
      * left. exists bed. by injection Hfind as ->.
      * right. by exists bed.
    + intros [(bed & Hget & Hst)|(bed & Hget & Hst)]; exists bed.
      * by rewrite Hget.
      * by rewrite (Htb_icu _ Hget).
  - intros (bed & Hget & Hst). unfold reserve_bed. rewrite Hget.
    rewrite decide_False, decide_True by (done || by rewrite Hst). done.
  - intros (bed & Hget & Hst). unfold reserve_bed.
    rewrite (Htb_icu _ Hget), Hget.
    rewrite decide_False, decide_True by (done || by rewrite Hst). done.
Qed.
End BedQueries.

(** Settles membership of a closed string in a closed list. *)
Ltac closed_elem := apply (bool_decide_unpack _); by vm_compute.

Section BedQueriesAfter.
Implicit Types (s : HospitalState) (beds : dict Bed).

Lemma bed_ids_with_length statuses beds :
  0 ≤ len (bed_ids_with statuses beds) ≤ len beds.
Proof.
  unfold bed_ids_with, dict_keys, len. rewrite length_fmap.
  pose proof (length_filter (λ kv : string * Bed, status kv.2 ∈ statuses)
                beds). lia.
Qed.

Lemma dict_set_len {V} (k : string) (v : V) (d : dict V) :
  is_Some (dict_get k d) → len (dict_set k v d) = len d.
Proof.
  intros Hk%(dict_set_keys k v). apply (f_equal length) in Hk.
  unfold dict_keys in Hk. rewrite !length_fmap in Hk. unfold len.
  by rewrite Hk.
Qed.

(** Reserving the bed found under [bed_id] takes one id off the list of
    available beds. *)
Lemma available_count_after_set beds bed_id bed patient_name prio now :
  dict_get bed_id beds = Some bed → status bed = "available" →
  len (bed_ids_with ["available"]
         (dict_set bed_id (reserved_bed patient_name prio now) beds))
  = len (bed_ids_with ["available"] beds) - 1.
Proof.
  unfold bed_ids_with, dict_keys, len.
  induction beds as [|[k0 b0] beds IH]; simpl; [done|].
  intros Hget Hst. case_decide as Hk.
  - injection Hget as ->. subst k0.
    rewrite filter_cons_False, filter_cons_True;
      [| simpl; rewrite Hst; closed_elem | simpl; closed_elem].
    rewrite !length_fmap. simpl. lia.
  - specialize (IH Hget Hst). rewrite !length_fmap in IH.
    destruct (decide (status b0 ∈ ["available"])).
    + rewrite !filter_cons_True by done. rewrite !length_fmap. simpl.
      lia.
    + rewrite !filter_cons_False by done. rewrite !length_fmap. lia.
Qed.

(** Every bed of known status is counted either as available or as
    occupied (which includes reserved), never both. *)
Lemma occupied_count beds :
  Forall (λ kv : string * Bed, known_status (status kv.2)) beds →
  len (bed_ids_with ["occupied"; "reserved"] beds)
  = len beds - len (bed_ids_with ["available"] beds).
Proof.
  unfold bed_ids_with, dict_keys, len. rewrite !length_fmap.
  induction 1 as [|[k b] beds Hb _ IH]; simpl; [done|].
  unfold known_status in Hb. simpl in Hb.
  repeat (apply elem_of_cons in Hb as [Hb|Hb]);
    [| | |by apply elem_of_nil in Hb].
  - rewrite filter_cons_False, filter_cons_True;
      [| simpl; rewrite Hb; closed_elem | simpl; rewrite Hb; closed_elem].
    simpl. lia.
  - rewrite filter_cons_True, filter_cons_False;
      [| simpl; rewrite Hb; closed_elem | simpl; rewrite Hb; closed_elem].
    simpl. lia.
  - rewrite filter_cons_True, filter_cons_False;
      [| simpl; rewrite Hb; closed_elem | simpl; rewrite Hb; closed_elem].
    simpl. lia.
Qed.

(** X13: in every state the global can take, a granted reserve_bed call
    shows in the next check_bed_availability of the department that booked
    it: the available count is one less, the total is the same, and the bed
    id has left the available list for the reserved list. *)
Theorem granted_bed_moves_to_reserved now bed_id patient_name prio s dept :
  reachable s →
  rb_success (reserve_bed now bed_id patient_name prio s).1 = true →
  rb_department (reserve_bed now bed_id patient_name prio s).1 = Some dept →
  ∃ before after avail reserved,
    check_bed_availability dept s = Ok (Some before) ∧
    check_bed_availability dept
      (reserve_bed now bed_id patient_name prio s).2 = Ok (Some after) ∧
    ba_count after = ba_count before - 1 ∧
    ba_total_beds after = ba_total_beds before ∧
    ba_available_beds after = inl avail ∧
    ba_reserved_beds after = Some reserved ∧
    (bed_id ∉ avail) ∧ (bed_id ∈ reserved).
Proof.
  intros Hreach Hsucc Hdept.
  pose proof (reach_reserve_bed now bed_id patient_name prio s Hreach)
    as Hreach'.
  apply reachable_shape_ok in Hreach, Hreach'.
  destruct (shape_ok_ids _ Hreach) as (_ & _ & Hne & _).
  destruct (shape_ok_ids _ Hreach') as (Hnd1 & Hnd2 & Hne' & _).
  pose proof Hsucc as (bed & Hfind & Hst)%reserve_bed_success_iff.
  destruct (reserve_bed_available now bed_id patient_name prio s bed
              Hfind Hst) as (_ & _ & Hstate).
  specialize (Hstate bed_id). rewrite decide_True in Hstate by done.
  assert (Hres : ∀ beds,
            NoDup (dict_keys beds) →
            dict_get bed_id beds = Some (reserved_bed patient_name prio now) →
            (bed_id ∉ bed_ids_with ["available"] beds) ∧
            (bed_id ∈ bed_ids_with ["reserved"] beds)).
  { intros beds Hnd Hget. rewrite !bed_listed_iff by done. split.
    - intros (b & Hb & Hin). rewrite Hget in Hb. injection Hb as <-.
      revert Hin. simpl. closed_elem.
    - eexists. split; [done|]. simpl. closed_elem. }
  unfold find_bed in Hfind, Hstate. revert Hdept Hstate Hnd1 Hnd2 Hne'.
  unfold reserve_bed.
  destruct (dict_get bed_id (icu_beds s)) as [b|] eqn:Hicu.
  - injection Hfind as ->.
    rewrite decide_False, decide_True by (done || by rewrite Hst).
    cbn [fst snd rb_department]. intros [= <-] Hstate Hnd1 Hnd2 Hne'.
    rewrite !check_bed_availability_icu by done.
    eexists _, _, _, _. split; [done|]. split; [done|].
    cbn [ba_count ba_total_beds ba_available_beds ba_reserved_beds
           set_icu_beds icu_beds] in *.
    rewrite dict_get_set_eq in Hstate.
    split_and!; [by eapply available_count_after_set | | done | done |..].
    + apply dict_set_len. by eexists.
    + apply Hres; [done|]. apply dict_get_set_eq.
    + apply Hres; [done|]. apply dict_get_set_eq.
  - rewrite Hfind.
    rewrite decide_False, decide_True by (done || by rewrite Hst).
    cbn [fst snd rb_department]. intros [= <-] Hstate Hnd1 Hnd2 Hne'.
    rewrite !check_bed_availability_trauma.
    eexists _, _, _, _. split; [done|]. split; [done|].
    cbn [ba_count ba_total_beds ba_available_beds ba_reserved_beds
           set_ed_trauma_bays ed_trauma_bays] in *.
    split_and!; [by eapply available_count_after_set | | done | done |..].
    + apply dict_set_len. by eexists.
    + apply Hres; [done|]. apply dict_get_set_eq.
    + apply Hres; [done|]. apply dict_get_set_eq.
Qed.
End BedQueriesAfter.

Section BedReports.
Implicit Types (s : HospitalState).

Lemma wait_unless_zero {A} (l : list A) (wait : Z) :
  wait ≠ 0 → wait_unless l wait = 0 ↔ 0 < len l.
Proof.
  intros Hwait. unfold len. destruct l; simpl; [split; [done|lia]|].
  split; [lia|done].
Qed.

(** X14: in every state the global can take, check_bed_availability
    answers each of 'ICU', 'ED_Trauma' and 'ED_Treatment' with a report for
    that department whose count lies between 0 and the total and whose
    estimated wait is 0 exactly when the count is positive; for any other
    department name it returns nothing at all (None), not an error. *)
Theorem check_bed_availability_report department s :
  reachable s →
  (department ∉ ["ICU"; "ED_Trauma"; "ED_Treatment"] →
   check_bed_availability department s = Ok None) ∧
  (department ∈ ["ICU"; "ED_Trauma"; "ED_Treatment"] →
   ∃ r, check_bed_availability department s = Ok (Some r) ∧
        ba_department r = department ∧
        0 ≤ ba_count r ≤ ba_total_beds r ∧
        (ba_estimated_wait_minutes r = 0 ↔ 0 < ba_count r)).
Proof.
  intros Hshape%reachable_shape_ok.
  destruct (shape_ok_ids s Hshape) as (_ & _ & Hne & _).
  split.
  - intros Hdept. unfold check_bed_availability.
    rewrite !decide_False; [done|..]; intros ->; apply Hdept; closed_elem.
  - intros Hdept.
    repeat (apply elem_of_cons in Hdept as [->|Hdept]);
      [| | |by apply elem_of_nil in Hdept].
    + rewrite check_bed_availability_icu by done. eexists.
      split; [done|]. cbn [ba_department ba_count ba_total_beds
                             ba_estimated_wait_minutes].
      split_and!; [done | apply bed_ids_with_length..
                  | by apply wait_unless_zero].
    + rewrite check_bed_availability_trauma. eexists.
      split; [done|]. cbn [ba_department ba_count ba_total_beds
                             ba_estimated_wait_minutes].
      split_and!; [done | apply bed_ids_with_length..
                  | by apply wait_unless_zero].
    + unfold check_bed_availability. rewrite (shape_rooms s Hshape).
      eexists. split; [reflexivity|]. simpl. split_and!; done.
Qed.

(** X15: in every state the global can take, get_hospital_state and
    check_bed_availability report the same ICU figures: the same list of
    available ids, the same count and total, and the same occupancy rate,
    although one counts the occupied and reserved beds and the other takes
    the beds that are not available. *)
Theorem tools_agree_on_icu_occupancy now query_filter s :
  reachable s →
  selects query_filter "beds_only" →
  ∃ snap b r rate,
    get_hospital_state now query_filter s = Ok snap ∧
    beds snap = Some b ∧
    check_bed_availability "ICU" s = Ok (Some r) ∧
    ba_available_beds r = inl (bs_available (icu b)) ∧
    ba_count r = bs_available_count (icu b) ∧
    ba_total_beds r = bs_total (icu b) ∧
    bs_occupancy_rate (icu b) = Some rate ∧
    ba_occupancy_rate r = Some rate.
Proof.
  intros Hreach Hsel.
  pose proof (reachable_inventory_ok s Hreach) as Hok.
  pose proof (reachable_shape_ok s Hreach) as Hshape.
  destruct (staff_section_ok s Hok) as (st & l & Hst & _).
  destruct (find_shortages_ok (equipment s) [] (ok_totals s Hok))
    as (sh & Hsh & _).
  apply filter_selects_spec in Hsel.
  unfold get_hospital_state. rewrite Hsel, Hst, Hsh.
  unfold beds_section, py_div.
  rewrite (proj2 (Z.eqb_neq (len (icu_beds s)) 0))
    by (pose proof (len_pos _ (ok_icu s Hok)); lia).
  cbn [mbind py_bind mret py_ret].
  rewrite check_bed_availability_icu by apply (ok_icu s Hok).
  rewrite (occupied_count (icu_beds s)) by apply (shape_icu_status s Hshape).
  destruct (filter_selects query_filter "staff_only"),
    (filter_selects query_filter "equipment_only");
    cbn [mbind py_bind mret py_ret];
    eexists _, _, _, _; (split; [reflexivity|]);
    cbn [beds icu]; (split; [reflexivity|]); (split; [reflexivity|]);
    cbn [ba_available_beds ba_count ba_total_beds ba_occupancy_rate
           bs_available bs_available_count bs_total bs_occupancy_rate];
    split_and!; reflexivity.
Qed.
End BedReports.

Section ReserveBedOrder.
Implicit Types (s : HospitalState).

Lemma dict_set_comm {V} (k1 k2 : string) (v1 v2 : V) (d : dict V) :
  k1 ≠ k2 → is_Some (dict_get k1 d) → is_Some (dict_get k2 d) →
  dict_set k1 v1 (dict_set k2 v2 d) = dict_set k2 v2 (dict_set k1 v1 d).
Proof.
  intros Hne. induction d as [|[k0 v0] d IH]; simpl; [by intros [? ?]|].
  intros Hk1 Hk2.
  destruct (decide (k0 = k1)) as [E1|H1], (decide (k0 = k2)) as [E2|H2];
    simpl; try congruence; repeat case_decide; try congruence.
  f_equal. by apply IH.
Qed.

Lemma reserve_bed_state now bed_id p prio s :
  (reserve_bed now bed_id p prio s).2
  = match grantable bed_id s with
    | Some place => book place now bed_id p prio s
    | None => s
    end.
Proof.
  unfold reserve_bed, grantable.
  destruct (dict_get bed_id (icu_beds s)) as [b|];
    [|destruct (dict_get bed_id (ed_trauma_bays s)) as [b|]];
    repeat case_decide; try done; congruence.
Qed.

(** The answer of a call only depends on what the two bed dicts hold under
    its bed id. *)
Lemma reserve_bed_answer_local now bed_id p prio s s' :
  dict_get bed_id (icu_beds s) = dict_get bed_id (icu_beds s') →
  dict_get bed_id (ed_trauma_bays s) = dict_get bed_id (ed_trauma_bays s') →
  (reserve_bed now bed_id p prio s).1 = (reserve_bed now bed_id p prio s').1.
Proof.
  unfold reserve_bed. intros <- <-.
  destruct (dict_get bed_id (icu_beds s)) as [b|];
    [|destruct (dict_get bed_id (ed_trauma_bays s)) as [b|]];
    repeat case_decide; done.
Qed.

Lemma grantable_icu bed_id s :
  grantable bed_id s = Some InICU → is_Some (dict_get bed_id (icu_beds s)).
Proof.
  unfold grantable. destruct (dict_get bed_id (icu_beds s)); [by eexists|].
  destruct (dict_get bed_id (ed_trauma_bays s)); [|done]. by case_decide.
Qed.

Lemma grantable_trauma bed_id s :
  grantable bed_id s = Some InTrauma →
  is_Some (dict_get bed_id (ed_trauma_bays s)).
Proof.
  unfold grantable. destruct (dict_get bed_id (icu_beds s)).
  - by case_decide.
  - destruct (dict_get bed_id (ed_trauma_bays s)); [by eexists | done].
Qed.

Lemma reserve_bed_other_lookups now bed_id p prio s other :
  bed_id ≠ other →
  dict_get other (icu_beds (reserve_bed now bed_id p prio s).2)
    = dict_get other (icu_beds s) ∧
  dict_get other (ed_trauma_bays (reserve_bed now bed_id p prio s).2)
    = dict_get other (ed_trauma_bays s).
Proof.
  intros Hne. rewrite reserve_bed_state.
  destruct (grantable bed_id s) as [[]|]; simpl; [| |done];
    by rewrite dict_get_set_ne.
Qed.

Lemma grantable_other now bed_id p prio s other :
  bed_id ≠ other →
  grantable other (reserve_bed now bed_id p prio s).2 = grantable other s.
Proof.
  intros Hne. unfold grantable.
  by destruct (reserve_bed_other_lookups now bed_id p prio s other Hne)
    as [-> ->].
Qed.

Lemma book_comm place1 place2 now1 bed1 p1 prio1 now2 bed2 p2 prio2 s :
  bed1 ≠ bed2 →
  grantable bed1 s = Some place1 → grantable bed2 s = Some place2 →
  book place2 now2 bed2 p2 prio2 (book place1 now1 bed1 p1 prio1 s)
  = book place1 now1 bed1 p1 prio1 (book place2 now2 bed2 p2 prio2 s).
Proof.
  intros Hne H1 H2.
  destruct place1, place2; unfold book, set_icu_beds, set_ed_trauma_bays;
    simpl; f_equal.
  - apply dict_set_comm; [done|by apply grantable_icu..].
  - apply dict_set_comm; [done|by apply grantable_trauma..].
Qed.

(** X16: two reserve_bed calls on different bed ids do not interfere: in
    either order each call gets the same answer and the final state is the
    same. *)
Theorem reserve_bed_distinct_beds_commute
    now1 bed1 patient1 prio1 now2 bed2 patient2 prio2 s :
  bed1 ≠ bed2 →
  let first := reserve_bed now1 bed1 patient1 prio1 s in
  let second := reserve_bed now2 bed2 patient2 prio2 first.2 in
  let first' := reserve_bed now2 bed2 patient2 prio2 s in
  let second' := reserve_bed now1 bed1 patient1 prio1 first'.2 in
  first.1 = second'.1 ∧ second.1 = first'.1 ∧ second.2 = second'.2.
Proof.
  intros Hne first second first' second'.
  subst first second first' second'.
  assert (Hne' : bed2 ≠ bed1) by done.
  destruct (reserve_bed_other_lookups now1 bed1 patient1 prio1 s bed2 Hne)
    as [Hi12 Ht12].
  destruct (reserve_bed_other_lookups now2 bed2 patient2 prio2 s bed1 Hne')
    as [Hi21 Ht21].
  split_and!.
  - by apply reserve_bed_answer_local.
  - by apply reserve_bed_answer_local.
  - rewrite (reserve_bed_state now2 bed2), (reserve_bed_state now1 bed1 _ _
      (reserve_bed now2 bed2 patient2 prio2 s).2).
    rewrite !grantable_other by done. rewrite !reserve_bed_state.
    destruct (grantable bed1 s) as [place1|] eqn:H1,
      (grantable bed2 s) as [place2|] eqn:H2; try done.
    by apply book_comm.
Qed.
End ReserveBedOrder.

(** ** Staff *)

Section Staff.
Implicit Types (s : HospitalState) (l : list StaffMember).

Lemma specialty_map_known spec :
  is_Some (dict_get spec specialty_map) ↔
  spec ∈ ["ED_Physician"; "ED_Nurse"; "Cardiologist"; "Trauma_Surgeon"].
Proof.
  rewrite <- not_eq_None_Some, dict_get_None.
  change (dict_keys specialty_map)
    with ["ED_Physician"; "ED_Nurse"; "Cardiologist"; "Trauma_Surgeon"].
  split; [apply dec_stable | by intros ? ?].
Qed.

Lemma specialty_map_key spec key :
  dict_get spec specialty_map = Some key →
  key ≠ "" ∧
  key ∈ ["ed_physicians"; "ed_nurses"; "cardiologists"; "trauma_surgeons"].
Proof.
  unfold specialty_map. simpl.
  repeat (case_decide; [intros [= <-]; split; [done | closed_elem]|]).
  done.
Qed.

Lemma update_staff_is_Some key n l :
  is_Some (update_staff key n l) ↔ ∃ m, m ∈ l ∧ name m = n.
Proof.
  induction l as [|m l IH]; simpl.
  - split; [by intros [? ?] | by intros (? & ?%elem_of_nil & _)].
  - case_decide as Hn.
    + split; [intros _; exists m; split; [by left | done] | by eexists].
    + destruct (update_staff key n l) as [[m1 l1]|]; simpl.
      * split; [|by eexists]. intros _.
        destruct (proj1 IH) as (m2 & Hin & Hname); [by eexists|].
        exists m2. split; [by right | done].
      * split; [by intros [? ?]|].
        intros (m2 & [->|Hin]%elem_of_cons & Hname); [done|].
        apply IH. by exists m2.
Qed.

(** What update_staff does to the list: the first member called [n] is
    replaced by its updated record, in place. *)
Lemma update_staff_insert key n l m' l' :
  update_staff key n l = Some (m', l') →
  ∃ (i : nat) m,
    l !! i = Some m ∧ name m = n ∧
    (∀ (j : nat) m0, (j < i)%nat → l !! j = Some m0 → name m0 ≠ n) ∧
    m' = update_workload key m ∧ l' = <[i := m']> l.
Proof.
  revert m' l'. induction l as [|m l IH]; intros m' l'; simpl; [done|].
  case_decide as Hn.
  - intros [= <- <-]. exists 0%nat, m. split_and!; try done.
    intros j m0 Hj. lia.
  - destruct (update_staff key n l) as [[m1 l1]|]; simpl; [|done].
    intros [= <- <-]. destruct (IH _ _ eq_refl) as (i & m2 & ? & ? & Hb & ? & ->).
    exists (S i), m2. split_and!; try done.
    intros [|j] m0 Hj; simpl; [by intros [= <-]|]. apply Hb. lia.
Qed.

(** X17: assign_staff succeeds exactly when the specialty is one of the
    four it knows and a member of that name is on the specialty's list; the
    member's load or availability is never consulted, so a call that
    succeeded succeeds again for the next patient; a failing call returns
    the state it was given. *)
Theorem assign_staff_only_checks_identity staff_name spec patient_name s :
  (sa_success (assign_staff staff_name spec patient_name s).1 = true ↔
   ∃ key l m,
     dict_get spec specialty_map = Some key ∧
     dict_get key (staff_available s) = Some l ∧
     m ∈ l ∧ name m = staff_name) ∧
  (sa_success (assign_staff staff_name spec patient_name s).1 = false →
   (assign_staff staff_name spec patient_name s).2 = s) ∧
  (sa_success (assign_staff staff_name spec patient_name s).1 = true →
   ∀ next_patient,
     sa_success
       (assign_staff staff_name spec next_patient
          (assign_staff staff_name spec patient_name s).2).1 = true).
Proof.
  assert (Hiff : ∀ p s0,
    sa_success (assign_staff staff_name spec p s0).1 = true ↔
    ∃ key l m,
      dict_get spec specialty_map = Some key ∧
      dict_get key (staff_available s0) = Some l ∧
      m ∈ l ∧ name m = staff_name).
  { intros p s0. unfold assign_staff.
    destruct (dict_get spec specialty_map) as [key|] eqn:Hkey; simpl.
    - destruct (specialty_map_key _ _ Hkey) as [Hne _].
      rewrite decide_False by done.
      destruct (update_staff key staff_name _) as [[m' l']|] eqn:Hupd; simpl.
      + split; [intros _|done].
        destruct (proj1 (update_staff_is_Some key staff_name
                           (default [] (dict_get key (staff_available s0)))))
          as (m & Hin & Hname); [by rewrite Hupd|].
        destruct (dict_get key (staff_available s0)) as [l|] eqn:Hl;
          simpl in Hin; [|by apply elem_of_nil in Hin].
        by exists key, l, m.
      + split; [done|]. intros (key' & l & m & [= <-] & Hl & Hin & Hname).
        rewrite Hl in Hupd. simpl in Hupd.
        assert (is_Some (update_staff key staff_name l)) as [? Hsome].
        { apply update_staff_is_Some. by exists m. }
        congruence.
    - split; [done|]. by intros (? & ? & ? & ? & _). }
  split_and!.
  - apply Hiff.
  - unfold assign_staff. by repeat (case_match; simpl).
  - intros Hsucc next_patient. apply Hiff.
    pose proof Hsucc as (key & l & m & Hkey & Hl & Hin & Hname)%Hiff.
    destruct (assign_staff_staff staff_name spec patient_name s)
      as [Hsame | (key' & m' & l' & Hupd & Hst)].
    + exists key, l, m. by rewrite Hsame.
    + rewrite Hst. destruct (decide (key' = key)) as [->|Hk].
      * rewrite Hl in Hupd. simpl in Hupd.
        pose proof (update_staff_names _ _ _ _ _ Hupd) as Hnames.
        assert (staff_name ∈ name <$> l') as (m2 & Hn2 & Hin2)%list_elem_of_fmap.
        { rewrite Hnames. apply list_elem_of_fmap. by exists m. }
        exists key, l', m2. by rewrite dict_get_set_eq.
      * exists key, l, m. by rewrite dict_get_set_ne.
Qed.
End Staff.

Section StaffReports.
Implicit Types (s : HospitalState) (l : list StaffMember).

Lemma insert_by_key_perm key x l : insert_by_key key x l ≡ₚ x :: l.
Proof.
  induction l as [|y l IH]; simpl; [done|].
  case_match; [done|]. rewrite IH. apply perm_swap.
Qed.

Lemma sorted_by_perm key l : sorted_by key l ≡ₚ l.
Proof.
  unfold sorted_by. induction l as [|x l IH]; simpl; [done|].
  by rewrite insert_by_key_perm, IH.
Qed.

Lemma insert_by_key_sorted key x l :
  StronglySorted (λ a b, key a ≤ key b) l →
  StronglySorted (λ a b, key a ≤ key b) (insert_by_key key x l).
Proof.
  induction 1 as [|y l Hl IH Hy]; simpl.
  - repeat constructor.
  - destruct (Z.leb_spec (key x) (key y)) as [Hxy|Hyx].
    + constructor; [by constructor|]. constructor; [done|].
      eapply Forall_impl; [exact Hy|]. simpl. intros. lia.
    + constructor; [done|]. rewrite insert_by_key_perm.
      constructor; [lia | done].
Qed.

Lemma sorted_by_sorted key l :
  StronglySorted (λ a b, key a ≤ key b) (sorted_by key l).
Proof.
  unfold sorted_by. induction l as [|x l IH]; simpl; [constructor|].
  by apply insert_by_key_sorted.
Qed.

Lemma insert_by_key_filter key (c : Z) x l :
  filter (λ m, key m = c) (insert_by_key key x l)
  = filter (λ m, key m = c) (x :: l).
Proof.
  induction l as [|y l IH]; simpl; [done|].
  destruct (Z.leb_spec (key x) (key y)) as [Hxy|Hyx]; [done|].
  destruct (decide (key x = c)) as [Hx|Hx].
  - rewrite (filter_cons_True _ x) by done.
    rewrite !(filter_cons_False _ y) by lia.
    rewrite IH. by rewrite filter_cons_True.
  - rewrite (filter_cons_False _ x) by done.
    destruct (decide (key y = c)).
    + rewrite !(filter_cons_True _ y) by done. rewrite IH.
      by rewrite filter_cons_False.
    + rewrite !(filter_cons_False _ y) by done. rewrite IH.
      by rewrite filter_cons_False.
Qed.

Lemma sorted_by_filter key (c : Z) l :
  filter (λ m, key m = c) (sorted_by key l) = filter (λ m, key m = c) l.
Proof.
  unfold sorted_by. induction l as [|x l IH]; simpl; [done|].
  rewrite insert_by_key_filter.
  destruct (decide (key x = c)).
  - rewrite !filter_cons_True by done. by rewrite IH.
  - rewrite !filter_cons_False by done. by rewrite IH.
Qed.

Lemma sorted_by_report key l spec :
  sorted_report key l
    {| sq_error := None; sq_specialty := Some spec;
       sq_available_staff := sorted_by key l;
       sq_total_count := Some (len (sorted_by key l));
       sq_least_busy := head (sorted_by key l) |}.
Proof.
  unfold sorted_report. simpl.
  pose proof (sorted_by_perm key l) as Hperm.
  pose proof (sorted_by_sorted key l) as Hsorted.
  split_and!; try done.
  - intros c. apply sorted_by_filter.
  - unfold len. do 2 f_equal. by apply Permutation_length.
  - destruct (sorted_by key l) as [|m t] eqn:Hs; simpl.
    + by apply Permutation_nil_l in Hperm.
    + apply StronglySorted_inv in Hsorted as [_ Hm]. split.
      * rewrite <- Hperm. by left.
      * intros m' Hin. rewrite <- Hperm in Hin.
        apply elem_of_cons in Hin as [->|Hin]; [lia|].
        by apply (proj1 (Forall_forall _ _) Hm).
Qed.

(** X19: get_available_staff for 'ED_Physician' and 'ED_Nurse' lists every
    member of the specialty, however loaded, in ascending order of
    current_load (resp. current_patients), members with equal load in
    their original order; total_count is the size of the specialty and
    least_busy is a member with the smallest load. *)
Theorem get_available_staff_sorted_by_load s :
  sorted_report load_key
    (default [] (dict_get "ed_physicians" (staff_available s)))
    (get_available_staff "ED_Physician" s) ∧
  sorted_report patients_key
    (default [] (dict_get "ed_nurses" (staff_available s)))
    (get_available_staff "ED_Nurse" s).
Proof. split; apply sorted_by_report. Qed.

(** X20: get_available_staff and assign_staff agree on which specialties
    exist: for a name other than the four known ones (the match is
    case-sensitive) the query returns the error with an empty staff list
    and the assignment is refused without touching the state; for a known
    one the query reports no error. *)
Theorem unknown_specialty_is_refused staff_name spec patient_name s :
  (spec ∉ ["ED_Physician"; "ED_Nurse"; "Cardiologist"; "Trauma_Surgeon"] →
   get_available_staff spec s = staff_query_unknown spec ∧
   assign_staff staff_name spec patient_name s
   = (staff_failure ("Unknown specialty: " +:+ spec), s)) ∧
  (spec ∈ ["ED_Physician"; "ED_Nurse"; "Cardiologist"; "Trauma_Surgeon"] →
   sq_error (get_available_staff spec s) = None ∧
   sq_specialty (get_available_staff spec s) = Some spec).
Proof.
  split.
  - intros Hspec. unfold get_available_staff, assign_staff.
    destruct (dict_get spec specialty_map) as [key|] eqn:Hkey; [|done].
    exfalso. apply Hspec, specialty_map_known. by eexists.
  - intros [key Hkey]%specialty_map_known.
    destruct (specialty_map_key _ _ Hkey) as [Hne _].
    unfold get_available_staff. rewrite Hkey, decide_False by done. done.
Qed.
End StaffReports.

Example physicians_least_busy_first :
  name <$> sq_available_staff (get_available_staff "ED_Physician"
                                 HOSPITAL_STATE)
  = ["Dr. Jones"; "Dr. Smith"].
Proof. reflexivity. Qed.

Section StaffAssignments.
Implicit Types (s : HospitalState) (l : list StaffMember).

Lemma update_workload_keeps key m :
  name (update_workload key m) = name m ∧
  specialty (update_workload key m) = specialty m.
Proof. unfold update_workload. by repeat case_decide. Qed.

(** What a successful assignment rewrites, and what it leaves alone. *)
Lemma assign_staff_effect staff_name spec patient_name s :
  sa_success (assign_staff staff_name spec patient_name s).1 = true →
  ∃ key l (i : nat) m,
    dict_get spec specialty_map = Some key ∧
    dict_get key (staff_available s) = Some l ∧
    l !! i = Some m ∧ name m = staff_name ∧
    (∀ (j : nat) m0, (j < i)%nat → l !! j = Some m0 → name m0 ≠ staff_name) ∧
    staff_available (assign_staff staff_name spec patient_name s).2
      = dict_set key (<[i := update_workload key m]> l) (staff_available s) ∧
    icu_beds (assign_staff staff_name spec patient_name s).2 = icu_beds s ∧
    ed_trauma_bays (assign_staff staff_name spec patient_name s).2
      = ed_trauma_bays s ∧
    ed_treatment_rooms (assign_staff staff_name spec patient_name s).2
      = ed_treatment_rooms s ∧
    equipment (assign_staff staff_name spec patient_name s).2 = equipment s ∧
    (spec = "ED_Physician" →
     load_key (update_workload key m) = load_key m + 1 ∧
     current_patients (update_workload key m) = current_patients m ∧
     staff_available_flag (update_workload key m) = staff_available_flag m) ∧
    (spec = "ED_Nurse" →
     patients_key (update_workload key m) = patients_key m + 1 ∧
     current_load (update_workload key m) = current_load m ∧
     staff_available_flag (update_workload key m) = staff_available_flag m) ∧
    (spec ∈ ["Cardiologist"; "Trauma_Surgeon"] →
     staff_available_flag (update_workload key m) = Some false ∧
     current_load (update_workload key m) = current_load m ∧
     current_patients (update_workload key m) = current_patients m).
Proof.
  intros Hsucc.
  destruct (assign_staff_frame staff_name spec patient_name s) as [Hicu Heq].
  assert (Hrest : ed_trauma_bays (assign_staff staff_name spec patient_name s).2
                  = ed_trauma_bays s ∧
                  ed_treatment_rooms
                    (assign_staff staff_name spec patient_name s).2
                  = ed_treatment_rooms s).
  { unfold assign_staff. by repeat (case_match; simpl). }
  destruct Hrest as [Htb Hrooms].
  revert Hsucc. unfold assign_staff at 1 2.
  destruct (dict_get spec specialty_map) as [key|] eqn:Hkey; [|done].
  destruct (specialty_map_key _ _ Hkey) as [Hne _].
  rewrite decide_False by done.
  destruct (dict_get key (staff_available s)) as [l|] eqn:Hl; simpl; [|done].
  destruct (update_staff key staff_name l) as [[m' l']|] eqn:Hupd; [|done].
  intros _. cbn [snd set_staff_available staff_available].
  destruct (update_staff_insert _ _ _ _ _ Hupd)
    as (i & m & Hi & Hname & Hfirst & -> & ->).
  exists key, l, i, m.
  split_and!; try done.
  - intros ->. injection Hkey as <-. by unfold update_workload, load_key.
  - intros ->. injection Hkey as <-. by unfold update_workload, patients_key.
  - intros Hspec.
    repeat (apply elem_of_cons in Hspec as [->|Hspec]);
      [| |by apply elem_of_nil in Hspec]; by injection Hkey as <-.
Qed.

(** X18: a successful assign_staff call rewrites exactly one record: the
    first member of that name on the specialty's list, in place.  For a
    physician the load goes up by one, for a nurse the patient count goes
    up by one, a specialist is marked unavailable; every other member,
    every other specialty, the beds, the treatment rooms and the equipment
    are left as they were. *)
Theorem assign_staff_updates_one_member staff_name spec patient_name s :
  sa_success (assign_staff staff_name spec patient_name s).1 = true →
  ∃ key l (i : nat) m,
    dict_get spec specialty_map = Some key ∧
    dict_get key (staff_available s) = Some l ∧
    l !! i = Some m ∧ name m = staff_name ∧
    (∀ (j : nat) m0, (j < i)%nat → l !! j = Some m0 → name m0 ≠ staff_name) ∧
    staff_available (assign_staff staff_name spec patient_name s).2
      = dict_set key (<[i := update_workload key m]> l) (staff_available s) ∧
    icu_beds (assign_staff staff_name spec patient_name s).2 = icu_beds s ∧
    ed_trauma_bays (assign_staff staff_name spec patient_name s).2
      = ed_trauma_bays s ∧
    ed_treatment_rooms (assign_staff staff_name spec patient_name s).2
      = ed_treatment_rooms s ∧
    equipment (assign_staff staff_name spec patient_name s).2 = equipment s ∧
    (spec = "ED_Physician" →
     load_key (update_workload key m) = load_key m + 1 ∧
     current_patients (update_workload key m) = current_patients m ∧
     staff_available_flag (update_workload key m) = staff_available_flag m) ∧
    (spec = "ED_Nurse" →
     patients_key (update_workload key m) = patients_key m + 1 ∧
     current_load (update_workload key m) = current_load m ∧
     staff_available_flag (update_workload key m) = staff_available_flag m) ∧
    (spec ∈ ["Cardiologist"; "Trauma_Surgeon"] →
     staff_available_flag (update_workload key m) = Some false ∧
     current_load (update_workload key m) = current_load m ∧
     current_patients (update_workload key m) = current_patients m).
Proof. apply assign_staff_effect. Qed.
End StaffAssignments.

Section Specialists.
Implicit Types (s : HospitalState) (l : list StaffMember).

Lemma dict_get_fmap_values {V B} (f : V → B) (k : string) (d : dict V) :
  dict_get k ((λ kv : string * V, (kv.1, f kv.2)) <$> d) = f <$> dict_get k d.
Proof.
  induction d as [|[k0 v0] d IH]; [done|].
  rewrite fmap_cons. simpl. by case_decide.
Qed.

(** On a state of the right shape no two members of a specialty share a
    name. *)
Lemma shape_ok_names s key l :
  shape_ok s → dict_get key (staff_available s) = Some l →
  NoDup (name <$> l).
Proof.
  intros Hshape Hl.
  pose proof (dict_get_fmap_values (fmap name) key (staff_available s)) as Hf.
  rewrite (shape_staff s Hshape), Hl in Hf. simpl in Hf.
  repeat (case_decide; [injection Hf as <-;
                        apply (bool_decide_unpack _); by vm_compute|]).
  done.
Qed.

Lemma filter_free_after_booking l (i : nat) m m' :
  NoDup (name <$> l) → l !! i = Some m →
  name m' = name m → ¬ is_free m' →
  filter is_free (<[i := m']> l)
  = filter (λ x, name x ≠ name m) (filter is_free l).
Proof.
  revert i. induction l as [|x l IH]; intros i; [done|].
  rewrite fmap_cons. intros [Hx Hnd]%NoDup_cons Hi Hname Hfree.
  destruct i as [|i]; simpl in Hi.
  - injection Hi as ->. simpl. rewrite filter_cons_False by done.
    assert (Hothers : filter (λ x, name x ≠ name m) (filter is_free l)
                      = filter is_free l).
    { clear -Hx. induction l as [|y l IH]; [done|].
      rewrite fmap_cons, not_elem_of_cons in Hx. destruct Hx as [Hy Hl].
      destruct (decide (is_free y)).
      - rewrite (filter_cons_True is_free) by done.
        rewrite filter_cons_True by done. by rewrite IH.
      - rewrite (filter_cons_False is_free) by done. by apply IH. }
    destruct (decide (is_free m)).
    + rewrite (filter_cons_True is_free) by done.
      rewrite filter_cons_False by (by intros ?). done.
    + by rewrite (filter_cons_False is_free) by done.
  - simpl. assert (name x ≠ name m).
    { intros Heq. apply Hx. rewrite Heq. apply list_elem_of_fmap.
      exists m. split; [done|]. by eapply list_elem_of_lookup_2. }
    destruct (decide (is_free x)).
    + rewrite !(filter_cons_True is_free) by done.
      rewrite filter_cons_True by done. f_equal. by apply IH.
    + rewrite !(filter_cons_False is_free) by done. by apply IH.
Qed.

Lemma get_available_staff_specialists spec key s :
  dict_get spec specialty_map = Some key →
  key ≠ "ed_physicians" → key ≠ "ed_nurses" →
  sq_available_staff (get_available_staff spec s)
  = filter is_free (default [] (dict_get key (staff_available s))).
Proof.
  intros Hkey Hp Hn. unfold get_available_staff. rewrite Hkey.
  destruct (specialty_map_key _ _ Hkey) as [Hne _].
  by rewrite !decide_False by done.
Qed.

(** X21: in every state the global can take, once assign_staff has booked
    a cardiologist or a trauma surgeon, get_available_staff for that
    specialty lists the same people as before except the one booked, who is
    no longer offered. *)
Theorem booked_specialist_is_no_longer_listed staff_name spec patient_name s :
  reachable s →
  spec ∈ ["Cardiologist"; "Trauma_Surgeon"] →
  sa_success (assign_staff staff_name spec patient_name s).1 = true →
  sq_available_staff
    (get_available_staff spec (assign_staff staff_name spec patient_name s).2)
  = filter (λ m, name m ≠ staff_name)
      (sq_available_staff (get_available_staff spec s)) ∧
  staff_name ∉
    name <$> sq_available_staff
               (get_available_staff spec
                  (assign_staff staff_name spec patient_name s).2).
Proof.
  intros Hshape%reachable_shape_ok Hspec Hsucc.
  destruct (assign_staff_effect _ _ _ _ Hsucc)
    as (key & l & i & m & Hkey & Hl & Hi & Hname & _ & Hst
        & _ & _ & _ & _ & _ & _ & Hflag).
  destruct (Hflag Hspec) as (Hbooked & _).
  assert (Hlist :
    sq_available_staff
      (get_available_staff spec (assign_staff staff_name spec patient_name s).2)
    = filter (λ m, name m ≠ staff_name)
        (sq_available_staff (get_available_staff spec s))).
  { assert (key ≠ "ed_physicians" ∧ key ≠ "ed_nurses") as [Hp Hn].
    { repeat (apply elem_of_cons in Hspec as [->|Hspec]);
        [| |by apply elem_of_nil in Hspec]; by injection Hkey as <-. }
    rewrite !(get_available_staff_specialists spec key) by done.
    rewrite Hst, dict_get_set_eq, Hl.
    cbn [default]. rewrite <- Hname.
    apply filter_free_after_booking.
    - by eapply shape_ok_names.
    - done.
    - apply update_workload_keeps.
    - unfold is_free. by rewrite Hbooked. }
  split; [done|]. rewrite Hlist.
  intros (m0 & Hn0 & [Hne _]%list_elem_of_filter)%list_elem_of_fmap. done.
Qed.
End Specialists.

(** ** The detector along a run *)

Section DetectorRuns.
Implicit Types (s : HospitalState).

Lemma max_severity_rank (sevs : list string) :
  severity_rank (max_severity sevs)
  = foldr Nat.max 0%nat (severity_rank <$> sevs).
Proof.
  induction sevs as [|a sevs IH]; [done|].
  rewrite fmap_cons. cbn [max_severity foldr]. fold (max_severity sevs).
  rewrite <- IH.
  destruct (Nat.ltb_spec (severity_rank (max_severity sevs))
              (severity_rank a)); lia.
Qed.

Lemma triggered_rules_rank s :
  severity_rank (max_severity (triggered_rules s).*2)
  = Nat.max (Nat.max (rule_rank (icu_rule s)) (rule_rank (trauma_rule s)))
      (Nat.max (rule_rank (physician_rule s))
         (rule_rank (ventilator_rule s))).
Proof.
  rewrite max_severity_rank. unfold triggered_rules.
  destruct (icu_rule s) as [[? ?]|], (trauma_rule s) as [[? ?]|],
    (physician_rule s) as [[? ?]|], (ventilator_rule s) as [[? ?]|];
    simpl; lia.
Qed.

Lemma count_available_nonneg beds : 0 ≤ count_available beds.
Proof. unfold count_available, len. lia. Qed.

Lemma count_available_cons k (b : Bed) beds :
  count_available ((k, b) :: beds)
  = (if decide (status b = "available") then 1 else 0) + count_available beds.
Proof.
  unfold count_available, dict_values, len. rewrite fmap_cons. cbn [snd].
  case_decide.
  - rewrite filter_cons_True by done. cbn [length]. lia.
  - by rewrite filter_cons_False by done.
Qed.

Lemma count_available_set beds bed_id bed p prio now :
  dict_get bed_id beds = Some bed →
  count_available (dict_set bed_id (reserved_bed p prio now) beds)
  ≤ count_available beds.
Proof.
  induction beds as [|[k0 b0] beds IH]; cbn [dict_get dict_set]; [done|].
  case_decide.
  - intros _. rewrite !count_available_cons.
    rewrite (decide_False (P := status (reserved_bed p prio now) = _))
      by done.
    case_decide; lia.
  - intros Hget%IH. rewrite !count_available_cons. lia.
Qed.

Lemma ventilator_rule_rank s v :
  dict_get "ventilators" (equipment s) = Some v → 0 ≤ available v →
  rule_rank (ventilator_rule s)
  = if decide (available v = 0) then 3%nat
    else if decide (available v = 1) then 2%nat else 0%nat.
Proof.
  intros Hv Hnn. unfold ventilator_rule. rewrite Hv. cbn [fmap option_fmap option_map].
  destruct (available v) as [|[q|q|]|]; repeat case_decide; try done; lia.
Qed.

Lemma nothing_released_refl s : nothing_released s s.
Proof.
  split; try done.
  - intros l Hl. by exists l.
  - intros v Hv. by exists v.
Qed.

Lemma reserve_bed_nothing_released now bed_id p prio s :
  nothing_released s (reserve_bed now bed_id p prio s).2.
Proof.
  destruct (reserve_bed_frame now bed_id p prio s) as (Hst & Heq & _).
  rewrite reserve_bed_state in *.
  destruct (grantable bed_id s) as [place|] eqn:Hgrant;
    [|apply nothing_released_refl].
  split.
  - destruct place; simpl; [|done].
    apply dict_set_len. by apply grantable_icu.
  - destruct place; simpl; [|done].
    destruct (grantable_icu _ _ Hgrant) as [b Hb].
    by eapply count_available_set.
  - destruct place; simpl; [done|].
    destruct (grantable_trauma _ _ Hgrant) as [b Hb].
    by eapply count_available_set.
  - intros l Hl. exists l. by rewrite Hst.
  - intros v Hv. exists v. by rewrite Heq.
Qed.

Lemma reserve_equipment_nothing_released ty p q s :
  0 ≤ q → nothing_released s (reserve_equipment ty p q s).2.
Proof.
  intros Hq. unfold reserve_equipment.
  destruct (dict_get ty (equipment s)) as [pool|] eqn:Hget;
    [|apply nothing_released_refl].
  destruct (Z.ltb_spec (available pool) q); [apply nothing_released_refl|].
  split; try done.
  - intros l Hl. by exists l.
  - intros v Hv. cbn [snd set_equipment equipment].
    rewrite dict_get_set. case_decide as Hty.
    + subst ty. eexists. split; [done|]. simpl.
      assert (pool = v) as -> by congruence. lia.
    + by exists v.
Qed.

Lemma update_staff_overload n l m' l' :
  update_staff "ed_physicians" n l = Some (m', l') →
  Exists (λ p, 5 ≤ default 0 (current_load p)) l →
  Exists (λ p, 5 ≤ default 0 (current_load p)) l'.
Proof.
  revert m' l'. induction l as [|m l IH]; intros m' l'; simpl; [done|].
  case_decide.
  - intros [= <- <-] [Hm|Hl]%Exists_cons; [left|by right]. simpl. lia.
  - destruct (update_staff _ n l) as [[m1 l1]|]; simpl; [|done].
    intros [= <- <-] [Hm|Hl]%Exists_cons; [by left|right]. by eapply IH.
Qed.

Lemma assign_staff_nothing_released n spec p s :
  nothing_released s (assign_staff n spec p s).2.
Proof.
  destruct (assign_staff_frame n spec p s) as (Hicu & Heq).
  assert (Htb : ed_trauma_bays (assign_staff n spec p s).2
                = ed_trauma_bays s).
  { unfold assign_staff. by repeat (case_match; simpl). }
  split; rewrite ?Hicu, ?Htb, ?Heq; try done.
  - intros l Hl.
    destruct (assign_staff_staff n spec p s)
      as [-> | (key & m' & l' & Hupd & ->)]; [by exists l|].
    rewrite dict_get_set. case_decide as Hkey; [|by exists l].
    subst key. rewrite Hl in Hupd. simpl in Hupd.
    exists l'. split; [done|]. by eapply update_staff_overload.
  - intros v Hv. by exists v.
Qed.

Lemma tool_step_nothing_released s s' :
  tool_step s s' → nothing_released s s'.
Proof.
  destruct 1.
  - apply reserve_bed_nothing_released.
  - by apply reserve_equipment_nothing_released.
  - apply assign_staff_nothing_released.
Qed.

Lemma tool_step_reachable s s' : reachable s → tool_step s s' → reachable s'.
Proof. intros Hs []; by constructor. Qed.

Lemma rules_rank_mono s s' :
  inventory_ok s → inventory_ok s' → nothing_released s s' →
  (rule_rank (icu_rule s) ≤ rule_rank (icu_rule s'))%nat ∧
  (rule_rank (trauma_rule s) ≤ rule_rank (trauma_rule s'))%nat ∧
  (rule_rank (physician_rule s) ≤ rule_rank (physician_rule s'))%nat ∧
  (rule_rank (ventilator_rule s) ≤ rule_rank (ventilator_rule s'))%nat.
Proof.
  intros Hok Hok' [Hlen Hicu Htb Hph Hv].
  destruct (ok_physicians s Hok) as (l & Hl & _).
  destruct (Hph l Hl) as (l' & Hl' & Hex).
  destruct (ok_ventilators s Hok) as (v & Hvs & Hnn).
  destruct (Hv v Hvs) as (v' & Hvs' & Hle).
  destruct (ok_ventilators s' Hok') as (v2 & Hv2 & Hnn').
  assert (v2 = v') as -> by congruence.
  pose proof (count_available_nonneg (ed_trauma_bays s')).
  split_and!.
  - unfold icu_rule. rewrite Hlen.
    repeat case_decide; try lia; vm_compute; lia.
  - unfold trauma_rule. repeat case_decide; try lia; vm_compute; lia.
  - unfold physician_rule. rewrite Hl, Hl'. cbn [default].
    repeat case_decide; try tauto; vm_compute; lia.
  - rewrite (ventilator_rule_rank s v Hvs Hnn),
      (ventilator_rule_rank s' v' Hvs' Hnn').
    repeat case_decide; lia.
Qed.

(** X22: nothing is ever released, so the reported conflict severity can
    only grow: in every state the global can take, after one more
    reserve_bed, assign_staff or reserve_equipment call (with a
    non-negative quantity) detect_resource_conflicts reports a severity at
    least as high as before. *)
Theorem conflict_severity_never_drops now now' s s' :
  reachable s → tool_step s s' →
  ∃ r r',
    detect_resource_conflicts now s = Ok r ∧
    detect_resource_conflicts now' s' = Ok r' ∧
    (severity_rank (cr_severity r) ≤ severity_rank (cr_severity r'))%nat.
Proof.
  intros Hreach Hstep.
  pose proof (tool_step_reachable _ _ Hreach Hstep) as Hreach'.
  apply reachable_inventory_ok in Hreach, Hreach'.
  destruct (detect_resource_conflicts_spec now s Hreach)
    as (r & Hr & _ & Hsev & _).
  destruct (detect_resource_conflicts_spec now' s' Hreach')
    as (r' & Hr' & _ & Hsev' & _).
  exists r, r'. split; [done|]. split; [done|].
  rewrite Hsev, Hsev', !triggered_rules_rank.
  destruct (rules_rank_mono s s' Hreach Hreach'
              (tool_step_nothing_released _ _ Hstep)) as (? & ? & ? & ?).
  lia.
Qed.
End DetectorRuns.

(** With a negative quantity the severity does drop: two ventilators
    taken (CRITICAL), then "minus two" requested. *)
Example negative_quantity_lowers_severity :
  let s1 := (reserve_equipment "ventilators" "Maria" 2 HOSPITAL_STATE).2 in
  let s2 := (reserve_equipment "ventilators" "John" (-2) s1).2 in
  (cr_severity <$> match detect_resource_conflicts "t" s1 with
                   | Ok r => Some r | Raise _ => None end,
   cr_severity <$> match detect_resource_conflicts "t" s2 with
                   | Ok r => Some r | Raise _ => None end)
  = (Some "CRITICAL", Some "NONE").
Proof. by vm_compute. Qed.

(** ** Worked instances on the initial inventory *)

Lemma inventory_shape_never_changes_witness :
  shape_ok
    (assign_staff "Dr. Patel" "Cardiologist" "Ana"
       (reserve_bed "09:00" "ICU-3" "Ana" "high" HOSPITAL_STATE).2).2.
Proof.
  apply inventory_shape_never_changes, reach_assign_staff, reach_reserve_bed,
    reach_init.
Defined.

Lemma listed_available_iff_reservable_witness :
  ∃ icu_report trauma_report icu_ids trauma_ids,
    check_bed_availability "ICU" HOSPITAL_STATE = Ok (Some icu_report) ∧
    check_bed_availability "ED_Trauma" HOSPITAL_STATE
    = Ok (Some trauma_report) ∧
    ba_available_beds icu_report = inl icu_ids ∧
    ba_available_beds trauma_report = inl trauma_ids ∧
    (rb_success (reserve_bed "09:00" "ICU-3" "Ana" "high" HOSPITAL_STATE).1
        = true ↔
     "ICU-3" ∈ icu_ids ∨ "ICU-3" ∈ trauma_ids) ∧
    ("ICU-3" ∈ icu_ids →
     rb_department (reserve_bed "09:00" "ICU-3" "Ana" "high" HOSPITAL_STATE).1
       = Some "ICU") ∧
    ("ICU-3" ∈ trauma_ids →
     rb_department (reserve_bed "09:00" "ICU-3" "Ana" "high" HOSPITAL_STATE).1
       = Some "ED_Trauma").
Proof.
  exact (listed_available_iff_reservable "09:00" "ICU-3" "Ana" "high"
           HOSPITAL_STATE reach_init).
Defined.

Lemma granted_bed_moves_to_reserved_witness :
  ∃ before after avail reserved,
    check_bed_availability "ED_Trauma" HOSPITAL_STATE = Ok (Some before) ∧
    check_bed_availability "ED_Trauma"
      (reserve_bed "09:00" "TB-2" "Ana" "high" HOSPITAL_STATE).2
      = Ok (Some after) ∧
    ba_count after = ba_count before - 1 ∧
    ba_total_beds after = ba_total_beds before ∧
    ba_available_beds after = inl avail ∧
    ba_reserved_beds after = Some reserved ∧
    ("TB-2" ∉ avail) ∧ ("TB-2" ∈ reserved).
Proof.
  apply (granted_bed_moves_to_reserved "09:00" "TB-2" "Ana" "high"
           HOSPITAL_STATE "ED_Trauma");
    [apply reach_init | reflexivity | reflexivity].
Defined.

Lemma check_bed_availability_report_witness :
  ("ICU" ∉ ["ICU"; "ED_Trauma"; "ED_Treatment"] →
   check_bed_availability "ICU"
     (reserve_bed "09:00" "ICU-3" "Ana" "high" HOSPITAL_STATE).2
   = Ok None) ∧
  ("ICU" ∈ ["ICU"; "ED_Trauma"; "ED_Treatment"] →
   ∃ r, check_bed_availability "ICU"
          (reserve_bed "09:00" "ICU-3" "Ana" "high" HOSPITAL_STATE).2
        = Ok (Some r) ∧
        ba_department r = "ICU" ∧
        0 ≤ ba_count r ≤ ba_total_beds r ∧
        (ba_estimated_wait_minutes r = 0 ↔ 0 < ba_count r)).
Proof.
  apply (check_bed_availability_report "ICU").
  apply reach_reserve_bed, reach_init.
Defined.

Lemma tools_agree_on_icu_occupancy_witness :
  ∃ snap b r rate,
    get_hospital_state "09:00" (Some "beds_only") HOSPITAL_STATE = Ok snap ∧
    beds snap = Some b ∧
    check_bed_availability "ICU" HOSPITAL_STATE = Ok (Some r) ∧
    ba_available_beds r = inl (bs_available (icu b)) ∧
    ba_count r = bs_available_count (icu b) ∧
    ba_total_beds r = bs_total (icu b) ∧
    bs_occupancy_rate (icu b) = Some rate ∧
    ba_occupancy_rate r = Some rate.
Proof.
  apply (tools_agree_on_icu_occupancy "09:00" (Some "beds_only"));
    [apply reach_init | right; left; reflexivity].
Defined.

Lemma reserve_bed_distinct_beds_commute_witness :
  let first := reserve_bed "09:00" "ICU-3" "Ana" "high" HOSPITAL_STATE in
  let second := reserve_bed "09:05" "TB-2" "John" "critical" first.2 in
  let first' := reserve_bed "09:05" "TB-2" "John" "critical" HOSPITAL_STATE in
  let second' := reserve_bed "09:00" "ICU-3" "Ana" "high" first'.2 in
  first.1 = second'.1 ∧ second.1 = first'.1 ∧ second.2 = second'.2.
Proof.
  apply (reserve_bed_distinct_beds_commute "09:00" "ICU-3" "Ana" "high"
           "09:05" "TB-2" "John" "critical" HOSPITAL_STATE).
  discriminate.
Defined.

Lemma assign_staff_only_checks_identity_witness :
  sa_success
    (assign_staff "Dr. Smith" "ED_Physician" "John"
       (assign_staff "Dr. Smith" "ED_Physician" "Ana" HOSPITAL_STATE).2).1
  = true.
Proof.
  destruct (assign_staff_only_checks_identity "Dr. Smith" "ED_Physician"
              "Ana" HOSPITAL_STATE) as (_ & _ & Hagain).
  apply Hagain. reflexivity.
Defined.

Lemma assign_staff_updates_one_member_witness :
  ∃ key l (i : nat) m,
    dict_get "ED_Physician" specialty_map = Some key ∧
    dict_get key (staff_available HOSPITAL_STATE) = Some l ∧
    l !! i = Some m ∧ name m = "Dr. Jones" ∧
    (∀ (j : nat) m0, (j < i)%nat → l !! j = Some m0 → name m0 ≠ "Dr. Jones") ∧
    staff_available
        (assign_staff "Dr. Jones" "ED_Physician" "Ana" HOSPITAL_STATE).2
      = dict_set key (<[i := update_workload key m]> l)
          (staff_available HOSPITAL_STATE) ∧
    icu_beds (assign_staff "Dr. Jones" "ED_Physician" "Ana"
        HOSPITAL_STATE).2 = icu_beds HOSPITAL_STATE ∧
    ed_trauma_bays
        (assign_staff "Dr. Jones" "ED_Physician" "Ana" HOSPITAL_STATE).2
      = ed_trauma_bays HOSPITAL_STATE ∧
    ed_treatment_rooms
        (assign_staff "Dr. Jones" "ED_Physician" "Ana" HOSPITAL_STATE).2
      = ed_treatment_rooms HOSPITAL_STATE ∧
    equipment (assign_staff "Dr. Jones" "ED_Physician" "Ana"
        HOSPITAL_STATE).2 = equipment HOSPITAL_STATE ∧
    ("ED_Physician" = "ED_Physician" →
     load_key (update_workload key m) = load_key m + 1 ∧
     current_patients (update_workload key m) = current_patients m ∧
     staff_available_flag (update_workload key m) = staff_available_flag m) ∧
    ("ED_Physician" = "ED_Nurse" →
     patients_key (update_workload key m) = patients_key m + 1 ∧
     current_load (update_workload key m) = current_load m ∧
     staff_available_flag (update_workload key m) = staff_available_flag m) ∧
    ("ED_Physician" ∈ ["Cardiologist"; "Trauma_Surgeon"] →
     staff_available_flag (update_workload key m) = Some false ∧
     current_load (update_workload key m) = current_load m ∧
     current_patients (update_workload key m) = current_patients m).
Proof.
  apply (assign_staff_updates_one_member "Dr. Jones" "ED_Physician" "Ana"
           HOSPITAL_STATE).
  reflexivity.
Defined.

Lemma unknown_specialty_is_refused_witness :
  get_available_staff "Radiologist" HOSPITAL_STATE
  = staff_query_unknown "Radiologist" ∧
  assign_staff "Dr. Smith" "Radiologist" "Ana" HOSPITAL_STATE
  = (staff_failure "Unknown specialty: Radiologist", HOSPITAL_STATE).
Proof.
  destruct (unknown_specialty_is_refused "Dr. Smith" "Radiologist" "Ana"
              HOSPITAL_STATE) as (Hunknown & _).
  apply Hunknown. apply (bool_decide_unpack _). vm_compute. exact I.
Defined.

Lemma booked_specialist_is_no_longer_listed_witness :
  sq_available_staff
    (get_available_staff "Cardiologist"
        (assign_staff "Dr. Patel" "Cardiologist" "Ana" HOSPITAL_STATE).2)
  = filter (λ m, name m ≠ "Dr. Patel")
      (sq_available_staff (get_available_staff "Cardiologist"
          HOSPITAL_STATE)) ∧
  "Dr. Patel" ∉
    name <$> sq_available_staff
               (get_available_staff "Cardiologist"
                  (assign_staff "Dr. Patel" "Cardiologist" "Ana" HOSPITAL_STATE).2).
Proof.
  apply (booked_specialist_is_no_longer_listed "Dr. Patel" "Cardiologist"
           "Ana" HOSPITAL_STATE);
    [apply reach_init | | reflexivity].
  apply (bool_decide_unpack _). vm_compute. exact I.
Defined.

Lemma conflict_severity_never_drops_witness :
  ∃ r r',
    detect_resource_conflicts "09:00" HOSPITAL_STATE = Ok r ∧
    detect_resource_conflicts "09:05"
        (reserve_equipment "ventilators" "Maria" 2 HOSPITAL_STATE).2 = Ok r' ∧
    (severity_rank (cr_severity r) ≤ severity_rank (cr_severity r'))%nat.
Proof.
  apply (conflict_severity_never_drops "09:00" "09:05" HOSPITAL_STATE);
    [apply reach_init | apply step_reserve_equipment; lia].
Defined.
